(** * XBlockRuntime: field-data selection, caching, event dispatch, rendering

    A shallow embedding of
    [openedx/core/djangoapps/xblock/runtime/runtime.py]:
    the classes [XBlockRuntime] and [XBlockRuntimeSystem].

    Python objects that are shared and compared by identity (field-data
    stores, key-value stores, [FieldDataCache]s) live in a heap indexed by
    allocation order; the two dicts of the runtime are finite maps; methods
    are state transformers that either return a value or raise, keeping the
    state they reached in both cases. *)

From stdpp Require Import gmap strings list fin_maps.
From Stdlib Require Import ZArith.

Set Warnings "-register-all".

Open Scope Z_scope.
Open Scope string_scope.
Open Scope list_scope.

(** ** Python-level data *)

(** Heap addresses: the identity of a Python object. *)
Abbreviation loc := nat (only parsing).

(** The JSON-like values carried by event dicts and tracking contexts. *)
Inductive Value :=
| VNone
| VBool (b : bool)
| VInt (n : Z)
| VStr (s : string)
| VDict (items : list (string * Value)).

(** [user_id: int | str | None] is [option UserId]. *)
Inductive UserId :=
| UidInt (n : Z)
| UidStr (s : string).

#[global] Instance UserId_eq_dec : EqDecision UserId.
Proof. solve_decision. Defined.

#[global] Instance UserId_countable : Countable UserId :=
  inj_countable'
    (λ u, match u with UidInt n => inl n | UidStr s => inr s end)
    (λ x, match x with inl n => UidInt n | inr s => UidStr s end)
    (λ u, match u with UidInt _ => eq_refl | UidStr _ => eq_refl end).

(** Python truthiness of a [user_id] ([if self.user_id:]). *)
Definition truthy_user_id (uid : option UserId) : bool :=
  match uid with
  | None => false
  | Some (UidInt n) => negb (Z.eqb n 0)
  | Some (UidStr s) => negb (String.eqb s "")
  end.

Definition Value_of_user_id (uid : UserId) : Value :=
  match uid with UidInt n => VInt n | UidStr s => VStr s end.

(** [str.startswith]. *)
Definition startswith (s pre : string) : bool := String.prefix pre s.

(** A Django user object: a registered [User] or an [AnonymousUser]. *)
Record UserType := mkUser {
  is_anonymous : bool;
  id : Z;
  is_staff : bool
}.

(** [openedx.core.djangoapps.xblock.data.StudentDataMode]. *)
Inductive StudentDataMode := Ephemeral | Persisted.

#[global] Instance StudentDataMode_eq_dec : EqDecision StudentDataMode.
Proof. solve_decision. Defined.

(** [xblock.fields.Scope]: the named scopes. *)
Module Scope.
Inductive t :=
| content | settings | parent | children
| user_state_summary | user_state | user_info | preferences.

Definition index (s : t) : nat :=
  match s with
  | content => 0 | settings => 1 | parent => 2 | children => 3
  | user_state_summary => 4 | user_state => 5 | user_info => 6
  | preferences => 7
  end%nat.

Definition of_index (n : nat) : t :=
  match n with
  | 0 => content | 1 => settings | 2 => parent | 3 => children
  | 4 => user_state_summary | 5 => user_state | 6 => user_info
  | _ => preferences
  end%nat.
End Scope.

#[global] Instance Scope_eq_dec : EqDecision Scope.t.
Proof. solve_decision. Defined.

#[global] Instance Scope_countable : Countable Scope.t :=
  inj_countable' Scope.index Scope.of_index
    (λ s, match s with
          | Scope.content | Scope.settings | Scope.parent | Scope.children
          | Scope.user_state_summary | Scope.user_state | Scope.user_info
          | Scope.preferences => eq_refl
          end).

(** Opaque keys, by their serialized form. *)
Abbreviation LearningContextKey := string (only parsing).

Record UsageKey := mkUsageKey {
  context_key : LearningContextKey;
  block_id : string
}.

#[global] Instance UsageKey_eq_dec : EqDecision UsageKey.
Proof. solve_decision. Defined.

#[global] Instance UsageKey_countable : Countable UsageKey :=
  inj_countable'
    (λ k, (context_key k, block_id k))
    (λ p, mkUsageKey p.1 p.2)
    (λ k, match k with mkUsageKey _ _ => eq_refl end).

(** [xblock.fields.ScopeIds], a named tuple hashed by its four fields. *)
Module ScopeIds.
Record t := mk {
  user_id : option UserId;
  block_type : string;
  def_id : string;
  usage_id : UsageKey
}.
End ScopeIds.

#[global] Instance ScopeIds_eq_dec : EqDecision ScopeIds.t.
Proof. solve_decision. Defined.

#[global] Instance ScopeIds_countable : Countable ScopeIds.t :=
  inj_countable'
    (λ s, (ScopeIds.user_id s, ScopeIds.block_type s,
           ScopeIds.def_id s, ScopeIds.usage_id s))
    (λ p, ScopeIds.mk p.1.1.1 p.1.1.2 p.1.2 p.2)
    (λ s, match s with ScopeIds.mk _ _ _ _ => eq_refl end).

(** An XBlock, as far as the runtime looks at it: its [scope_ids] and the
    class method [service_declaration]. *)
Record XBlock := mkXBlock {
  scope_ids : ScopeIds.t;
  service_declaration : string → option string
}.


(** Exceptions. [Raised] stands for an exception coming out of platform
    code. *)
Inductive Exn :=
| NoSuchServiceError (service_name : string)
| PermissionDenied
| AssertionError
| RuntimeError (msg : string)
| KeyError (key : string)
| Raised (exc : string).

(** [web_fragments.fragment.FragmentResource] (a named tuple) and
    [Fragment]. *)
Record FragmentResource := mkResource {
  kind : string;
  data : string;
  mimetype : string;
  placement : string
}.

Record Fragment := mkFragment {
  content : string;
  resources : list FragmentResource;
  js_init_fn : option string;
  js_init_version : option Z;
  json_init_args : Value
}.

(** The plain-data form [Fragment.to_dict()] returns; the entries of
    ['resources'] are the [_asdict()] of the named tuples, with the same four
    keys. *)
Record FragmentDict := mkFragmentDict {
  d_content : string;
  d_resources : list FragmentResource;
  d_js_init_fn : option string;
  d_js_init_version : option Z;
  d_json_init_args : Value
}.

Definition to_dict (f : Fragment) : FragmentDict :=
  mkFragmentDict (content f) (resources f) (js_init_fn f) (js_init_version f)
                 (json_init_args f).

Definition from_dict (pods : FragmentDict) : Fragment :=
  mkFragment (d_content pods) (d_resources pods) (d_js_init_fn pods)
             (d_js_init_version pods) (d_json_init_args pods).

(** [XBlockRuntimeSystem]: the attributes read by the runtime. *)
Record XBlockRuntimeSystem := mkSystem {
  authored_data_store : loc;
  children_data_store : loc;
  student_data_mode : StudentDataMode
}.

(** [XBlockRuntime]: the instance variables. *)
Record XBlockRuntime := mkRuntime {
  system : XBlockRuntimeSystem;
  user : option UserType;
  user_id : option UserId;
  block_field_datas : gmap ScopeIds.t (option loc);
  django_field_data_caches : gmap LearningContextKey loc
}.

(** What the platform receives from the event handlers: a
    [SCORE_PUBLISHED] signal, a submitted completion, an entry of the
    tracking log. *)
Inductive Effect :=
| SCORE_PUBLISHED_send (block : XBlock) (user : UserType)
    (raw_earned raw_possible only_if_higher score_deleted grader_response : Value)
| submit_completion (user : option UserType) (block_key : UsageKey)
    (completion : Value)
| server_track (event_type : string) (log_context : gmap string Value)
    (event : gmap string Value).

(** The services [XBlockRuntime.service] hands out. *)
Inductive ServiceObj :=
| FieldDataRef (field_data : loc)
| CompletionService (user : option UserType) (context_key : LearningContextKey)
| DjangoXBlockUserService (user : UserType) (user_is_staff : bool)
    (anonymous_user_id : string) (deprecated_anonymous_user_id : Value)
| MakoService (namespace_prefix : option string)
| XBlockI18nService (block : XBlock)
| SandboxService (course_id : LearningContextKey)
| CacheService
| ReplaceURLService (xblock : XBlock)
| RebindUserService (user : option UserType) (context_key : LearningContextKey)
| EventPublishingService (user : option UserType) (context_key : LearningContextKey)
| ErrorTracker
| ConstructorService (name : string).

(** ** The platform code the module imports

    What the module calls and is defined elsewhere is taken as an
    interface. *)
Class Platform := {
  (** [lms.djangoapps.courseware.model_data.FieldDataCache] *)
  FieldDataCache : Type;
  (** [FieldDataCache(blocks, course_id=, user=, asides=, read_only=)]:
      the new cache, or the exception the constructor raises. *)
  FieldDataCache_init :
    list XBlock → LearningContextKey → UserType → option (list string) → bool →
    Exn + FieldDataCache;
  (** [cache.add_blocks_to_cache(blocks)]: the cache afterwards, and the
      exception if the call raises. *)
  add_blocks_to_cache :
    FieldDataCache → list XBlock → FieldDataCache * option Exn;
  (** [openedx.core.djangoapps.xblock.utils.get_xblock_id_for_anonymous_user] *)
  get_xblock_id_for_anonymous_user : UserType → UserId;
  (** [ENABLE_COMPLETION_TRACKING_SWITCH.is_enabled()] *)
  completion_tracking_enabled : bool;
  (** [track_contexts.context_dict_for_learning_context] *)
  context_dict_for_learning_context : LearningContextKey → gmap string Value;
  (** [get_xblock_app_config().get_site_root_url()] *)
  get_site_root_url : string;
  (** [anonymous_id_for_user(user, course_id=None)] *)
  anonymous_id_for_user : UserType → string;
  (** the property [RuntimeShim.anonymous_student_id] *)
  anonymous_student_id : XBlockRuntime → Exn + string;
  (** [xblock.runtime.Runtime.service], the base implementation *)
  Runtime_service : XBlock → string → Exn + option string;
  (** [openedx.core.lib.xblock_utils.wrap_fragment] *)
  wrap_fragment : Fragment → string → Fragment;
  (** [ReplaceURLService(xblock=block, lookup_asset_url=...).replace_urls] *)
  replace_urls : XBlock → string → string;
}.

Section Runtime.
Context `{Platform}.

(** ** The heap *)

Inductive Obj :=
| BlockstoreFieldData
| BlockstoreChildrenData (authored_data : loc)
| EphemeralKeyValueStore
| DjangoKeyValueStore (field_data_cache : loc)
| KvsFieldData (kvs : loc)
| FieldDataCacheObj (cache : FieldDataCache)
| SplitFieldData (scope_mappings : gmap Scope.t (option loc)).

Record State := mkState {
  self : XBlockRuntime;
  heap : list Obj;
  emitted : list Effect
}.

Definition with_self (rt : XBlockRuntime) (σ : State) : State :=
  mkState rt (heap σ) (emitted σ).

Definition with_heap (h : list Obj) (σ : State) : State :=
  mkState (self σ) h (emitted σ).

Definition set_block_field_data (k : ScopeIds.t) (v : option loc)
    (rt : XBlockRuntime) : XBlockRuntime :=
  mkRuntime (system rt) (user rt) (user_id rt)
            (<[k := v]> (block_field_datas rt)) (django_field_data_caches rt).

Definition set_django_field_data_cache (k : LearningContextKey) (c : loc)
    (rt : XBlockRuntime) : XBlockRuntime :=
  mkRuntime (system rt) (user rt) (user_id rt)
            (block_field_datas rt) (<[k := c]> (django_field_data_caches rt)).

(** ** Methods as state transformers that may raise *)

Definition M (A : Type) : Type := State → (Exn + A) * State.

#[global] Instance M_ret : MRet M := λ A a σ, (inr a, σ).

#[global] Instance M_bind : MBind M := λ A B k m σ,
  match m σ with
  | (inl e, σ') => (inl e, σ')
  | (inr a, σ') => k a σ'
  end.

Definition raise {A} (e : Exn) : M A := λ σ, (inl e, σ).

(** [try: m] [except: h e] *)
Definition try_except {A} (m : M A) (h : Exn → M A) : M A := λ σ,
  match m σ with
  | (inl e, σ') => h e σ'
  | (inr a, σ') => (inr a, σ')
  end.

Definition get_self : M XBlockRuntime := λ σ, (inr (self σ), σ).

Definition put_self (rt : XBlockRuntime) : M unit := λ σ,
  (inr tt, with_self rt σ).

(** Object creation: the new object gets the next address. *)
Definition alloc (o : Obj) : M loc := λ σ,
  (inr (length (heap σ)), with_heap (heap σ ++ [o]) σ).

Definition emit (e : Effect) : M unit := λ σ,
  (inr tt, mkState (self σ) (heap σ) (emitted σ ++ [e])).

Definition assert_ (b : bool) : M unit :=
  if b then mret tt else raise AssertionError.

(** [d[k]] and [d.get(k)] on a dict with string keys. *)
Definition getitem (d : gmap string Value) (k : string) : M Value :=
  match d !! k with
  | Some v => mret v
  | None => raise (KeyError k)
  end.

Definition dict_get (d : gmap string Value) (k : string) : Value :=
  default VNone (d !! k).

(** ** [XBlockRuntimeSystem.__init__], [get_runtime], [get_service] *)

(** The two authored-data stores are created with the system; the assertion
    on [student_data_mode] holds for both members of the enumeration. *)
Definition XBlockRuntimeSystem_init (student_data_mode : StudentDataMode)
    (h : list Obj) : XBlockRuntimeSystem * list Obj :=
  let authored_data_store := length h in
  let children_data_store := S (length h) in
  (mkSystem authored_data_store children_data_store student_data_mode,
   h ++ [BlockstoreFieldData; BlockstoreChildrenData authored_data_store]).

(** [XBlockRuntime.__init__] *)
Definition XBlockRuntime_init (system : XBlockRuntimeSystem)
    (user : option UserType) : XBlockRuntime :=
  let user_id :=
    match user with
    | None => None
    | Some u =>
        if is_anonymous u then Some (get_xblock_id_for_anonymous_user u)
        else Some (UidInt (id u))
    end in
  mkRuntime system user user_id ∅ ∅.

(** [XBlockRuntimeSystem.get_runtime], with [runtime_class] a class that
    inherits [XBlockRuntime.__init__]: the runtime objects of the process
    are a list, and the new one is appended to it. *)
Definition get_runtime (system : XBlockRuntimeSystem) (user : option UserType)
    (runtimes : list XBlockRuntime) : loc * list XBlockRuntime :=
  (length runtimes, runtimes ++ [XBlockRuntime_init system user]).

Definition get_service (block : XBlock) (service_name : string)
    : option ServiceObj :=
  if decide (service_name = "error_tracker") then Some ErrorTracker else None.

(** ** [XBlockRuntime._init_field_data_for_block] *)

(** The asserted shape of an anonymous user's id:
    [isinstance(self.user_id, str) and self.user_id.startswith("anon")]. *)
Definition is_anon_user_id (uid : option UserId) : bool :=
  match uid with
  | Some (UidStr s) => startswith s "anon"
  | _ => false
  end.

(** [FieldDataCache([block], course_id=context_key, user=self.user,
    asides=None, read_only=False)] as a new object. *)
Definition new_FieldDataCache (block : XBlock) (course_id : LearningContextKey)
    (u : UserType) : M loc :=
  match FieldDataCache_init [block] course_id u None false with
  | inl e => raise e
  | inr c => alloc (FieldDataCacheObj c)
  end.

(** [field_data_cache.add_blocks_to_cache([block])]: the cache object is
    updated in place. *)
Definition do_add_blocks_to_cache (c : loc) (block : XBlock) : M unit := λ σ,
  match heap σ !! c with
  | Some (FieldDataCacheObj cache) =>
      let σ' := with_heap (<[c := FieldDataCacheObj
                                    (add_blocks_to_cache cache [block]).1]>
                             (heap σ)) σ in
      match (add_blocks_to_cache cache [block]).2 with
      | Some e => (inl e, σ')
      | None => (inr tt, σ')
      end
  | _ => (inl (Raised "AttributeError"), σ)
  end.

(** The dict given to [SplitFieldData] (lines 331-340). *)
Definition scope_mappings_for (sys : XBlockRuntimeSystem)
    (student_data_store : option loc) : gmap Scope.t (option loc) :=
  <[Scope.preferences := student_data_store]>
  (<[Scope.user_info := student_data_store]>
  (<[Scope.user_state := student_data_store]>
  (<[Scope.user_state_summary := student_data_store]>
  (<[Scope.children := Some (children_data_store sys)]>
  (<[Scope.parent := Some (authored_data_store sys)]>
  (<[Scope.settings := Some (authored_data_store sys)]>
  (<[Scope.content := Some (authored_data_store sys)]> ∅))))))).

Definition _init_field_data_for_block (block : XBlock) : M loc :=
  rt ← get_self;
  student_data_store ←
    match user rt with
    | None => mret None
    | Some u =>
        if is_anonymous u then
          assert_ (is_anon_user_id (user_id rt));;
          kvs ← alloc EphemeralKeyValueStore;
          store ← alloc (KvsFieldData kvs);
          mret (Some store)
        else if decide (student_data_mode (system rt) = Ephemeral) then
          kvs ← alloc EphemeralKeyValueStore;
          store ← alloc (KvsFieldData kvs);
          mret (Some store)
        else
          let context_key := context_key (ScopeIds.usage_id (scope_ids block)) in
          field_data_cache ←
            match django_field_data_caches rt !! context_key with
            | None =>
                field_data_cache ← new_FieldDataCache block context_key u;
                rt ← get_self;
                put_self (set_django_field_data_cache context_key
                            field_data_cache rt);;
                mret field_data_cache
            | Some field_data_cache =>
                do_add_blocks_to_cache field_data_cache block;;
                mret field_data_cache
            end;
          kvs ← alloc (DjangoKeyValueStore field_data_cache);
          store ← alloc (KvsFieldData kvs);
          mret (Some store)
    end;
  rt ← get_self;
  alloc (SplitFieldData (scope_mappings_for (system rt) student_data_store)).

(** [SplitFieldData._field_data]: the store that serves a scope; no store
    when the scope is not mapped ([InvalidScopeError]). *)
Definition _field_data (scope_mappings : gmap Scope.t (option loc))
    (scope : Scope.t) : option (option loc) :=
  scope_mappings !! scope.

(** [SplitFieldData.get], [set], [delete] and [has] call the same method
    of the store [_field_data] gives: that is not possible for a scope mapped
    to [None]. *)
Definition store_for_access (scope_mappings : gmap Scope.t (option loc))
    (scope : Scope.t) : Exn + loc :=
  match _field_data scope_mappings scope with
  | None => inl (Raised "InvalidScopeError")
  | Some None => inl (Raised "AttributeError")
  | Some (Some store) => inr store
  end.

(** ** [XBlockRuntime.service] *)

Definition service (block : XBlock) (service_name : string)
    : M (option ServiceObj) :=
  let declaration := service_declaration block service_name in
  let context_key := context_key (ScopeIds.usage_id (scope_ids block)) in
  match declaration with
  | None => raise (NoSuchServiceError service_name)
  | Some _ =>
    if decide (service_name = "field-data") then
      rt ← get_self;
      (if decide (block_field_datas rt !! scope_ids block = None) then
         try_except
           (field_data ← _init_field_data_for_block block;
            rt ← get_self;
            put_self (set_block_field_data (scope_ids block)
                        (Some field_data) rt))
           (λ e,
            rt ← get_self;
            put_self (set_block_field_data (scope_ids block) None rt);;
            raise e)
       else mret tt);;
      rt ← get_self;
      match block_field_datas rt !! scope_ids block with
      | Some v => mret (FieldDataRef <$> v)
      | None => raise (KeyError "scope_ids")
      end
    else if decide (service_name = "completion") then
      rt ← get_self;
      mret (Some (CompletionService (user rt) context_key))
    else if decide (service_name = "user") then
      rt ← get_self;
      match user rt with
      | None =>
          raise (RuntimeError
            "Cannot access user service when there is no user bound to the XBlock.")
      | Some u =>
          let deprecated_anonymous_student_id :=
            if is_anonymous u
            then from_option Value_of_user_id VNone (user_id rt)
            else VStr (anonymous_id_for_user u) in
          match anonymous_student_id rt with
          | inl e => raise e
          | inr anonymous_user_id =>
              mret (Some (DjangoXBlockUserService u (is_staff u)
                            anonymous_user_id deprecated_anonymous_student_id))
          end
      end
    else if decide (service_name = "mako") then
      rt ← get_self;
      if decide (student_data_mode (system rt) = Ephemeral)
      then mret (Some (MakoService (Some "lms.")))
      else mret (Some (MakoService None))
    else if decide (service_name = "i18n") then
      mret (Some (XBlockI18nService block))
    else if decide (service_name = "sandbox") then
      mret (Some (SandboxService context_key))
    else if decide (service_name = "cache") then
      mret (Some CacheService)
    else if decide (service_name = "replace_urls") then
      mret (Some (ReplaceURLService block))
    else if decide (service_name = "rebind_user") then
      rt ← get_self;
      mret (Some (RebindUserService (user rt) context_key))
    else if decide (service_name = "publish") then
      rt ← get_self;
      mret (Some (EventPublishingService (user rt) context_key))
    else
      match get_service block service_name with
      | Some s => mret (Some s)
      | None =>
          match Runtime_service block service_name with
          | inl e => raise e
          | inr s => mret (ConstructorService <$> s)
          end
      end
  end.

(** The state after a call, whether it returned or raised. *)
Definition exec {A} (m : M A) (σ : State) : State := (m σ).2.

(** A sequence of [service] calls on the runtime, each for some block and
    service name; calls that raise leave their state behind and the
    sequence goes on. *)
Fixpoint service_calls (calls : list (XBlock * string)) (σ : State) : State :=
  match calls with
  | [] => σ
  | (block, service_name) :: rest =>
      service_calls rest (exec (service block service_name) σ)
  end.

(** ** Events: [publish] and its handlers *)

Definition handle_grade_event (block : XBlock) (event : gmap string Value)
    : M unit :=
  rt ← get_self;
  match user rt with
  | Some u =>
      if negb (is_anonymous u) then
        raw_earned ← getitem event "value";
        raw_possible ← getitem event "max_value";
        emit (SCORE_PUBLISHED_send block u raw_earned raw_possible
                (dict_get event "only_if_higher")
                (dict_get event "score_deleted")
                (dict_get event "grader_response"))
      else mret tt
  | None => mret tt
  end.

Definition handle_completion_event (block : XBlock) (event : gmap string Value)
    : M unit :=
  if negb completion_tracking_enabled then mret tt
  else
    rt ← get_self;
    completion ← getitem event "completion";
    emit (submit_completion (user rt) (ScopeIds.usage_id (scope_ids block))
            completion).

Definition log_event_to_tracking_log (block : XBlock) (event_type : string)
    (event_data : gmap string Value) : M unit :=
  rt ← get_self;
  let log_context :=
    context_dict_for_learning_context
      (context_key (ScopeIds.usage_id (scope_ids block))) in
  let log_context :=
    if truthy_user_id (user_id rt)
    then <["user_id" := from_option Value_of_user_id VNone (user_id rt)]> log_context
    else log_context in
  let log_context := <["asides" := VDict []]> log_context in
  emit (server_track event_type log_context event_data).

(** A bound handler method, or [None]. *)
Definition get_event_handler (event_type : string)
    : M (option (XBlock → gmap string Value → M unit)) :=
  rt ← get_self;
  match user_id rt with
  | None => mret None
  | Some _ =>
      if decide (event_type = "grade") then mret (Some handle_grade_event)
      else if decide (event_type = "completion")
      then mret (Some handle_completion_event)
      else mret None
  end.

Definition publish (block : XBlock) (event_type : string)
    (event_data : gmap string Value) : M unit :=
  special_handler ← get_event_handler event_type;
  match special_handler with
  | Some handler => handler block event_data
  | None => log_event_to_tracking_log block event_type event_data
  end.

(** ** [XBlockRuntime.render] *)

(** The test of both loops of [render]:
    [resource.kind == 'url' and resource.data.startswith('/')]. *)
Definition is_relative_url (resource : FragmentResource) : bool :=
  String.eqb (kind resource) "url" && startswith (data resource) "/".

(** The body of the second loop, on one entry of [frag_data['resources']]. *)
Definition fix_resource (resource : FragmentResource) : FragmentResource :=
  if is_relative_url resource
  then mkResource (kind resource) (get_site_root_url +:+ data resource)
                  (mimetype resource) (placement resource)
  else resource.

Definition fix_frag_data (frag_data : FragmentDict) : FragmentDict :=
  mkFragmentDict (d_content frag_data) (fix_resource <$> d_resources frag_data)
                 (d_js_init_fn frag_data) (d_js_init_version frag_data)
                 (d_json_init_args frag_data).

(** [xblock.runtime.Runtime.render], which runs the block's view: any
    state transformer that returns a fragment or raises. *)
Variable Runtime_render :
  XBlock → string → option (gmap string Value) → M Fragment.

Definition render (block : XBlock) (view_name : string)
    (context : option (gmap string Value)) : M Fragment :=
  rt ← get_self;
  if (match user rt with None => true | Some u => is_anonymous u end)
     && negb (String.eqb view_name "public_view")
  then raise PermissionDenied
  else
    fragment ← Runtime_render block view_name context;
    let needs_fix := existsb is_relative_url (resources fragment) in
    let fragment :=
      if needs_fix then from_dict (fix_frag_data (to_dict fragment))
      else fragment in
    mret (wrap_fragment fragment (replace_urls block (content fragment))).

End Runtime.

(** ** Relations between states *)

Section Invariants.
Context `{Platform}.

(** Objects are never removed and keep their address; only a
    [FieldDataCache] can change, and it remains a [FieldDataCache]. *)
Definition heap_extends (h h' : list Obj) : Prop :=
  ∀ l o, h !! l = Some o →
    match o with
    | FieldDataCacheObj _ => ∃ cache', h' !! l = Some (FieldDataCacheObj cache')
    | _ => h' !! l = Some o
    end.

(** What every method of the runtime keeps of an earlier state:
    [system], [user] and [user_id] are never reassigned, entries of the two
    dicts are never overwritten or removed, and the heap only grows. *)
Record evolves (σ σ' : State) : Prop := {
  evolves_system : system (self σ') = system (self σ);
  evolves_user : user (self σ') = user (self σ);
  evolves_user_id : user_id (self σ') = user_id (self σ);
  evolves_block_field_datas : ∀ k v,
    block_field_datas (self σ) !! k = Some v →
    block_field_datas (self σ') !! k = Some v;
  evolves_django_field_data_caches : ∀ k c,
    django_field_data_caches (self σ) !! k = Some c →
    django_field_data_caches (self σ') !! k = Some c;
  evolves_heap : heap_extends (heap σ) (heap σ')
}.

(** Every entry of [django_field_data_caches] is a [FieldDataCache]. *)
Definition caches_wf (σ : State) : Prop :=
  ∀ k c, django_field_data_caches (self σ) !! k = Some c →
    ∃ cache, heap σ !! c = Some (FieldDataCacheObj cache).

(** What [_init_field_data_for_block] asserts of an anonymous user's
    [user_id]. *)
Definition anonymous_user_id_ok (rt : XBlockRuntime) : bool :=
  match user rt with
  | Some u => if is_anonymous u then is_anon_user_id (user_id rt) else true
  | None => true
  end.

(** The student data store of a block whose field data was initialized from
    [σ] to [σ']: nothing without a user; a [KvsFieldData] over a new
    [EphemeralKeyValueStore] for an anonymous user or in [Ephemeral] mode;
    otherwise a [KvsFieldData] over a [DjangoKeyValueStore] over the
    [FieldDataCache] registered for the block's learning context. *)
Definition is_student_data_store (σ σ' : State) (block : XBlock)
    (store : option loc) : Prop :=
  match user (self σ), store with
  | None, None => True
  | Some u, Some s =>
      ∃ kvs, heap σ' !! s = Some (KvsFieldData kvs) ∧
        if is_anonymous u
           || bool_decide (student_data_mode (system (self σ)) = Ephemeral)
        then heap σ !! kvs = None ∧ heap σ' !! kvs = Some EphemeralKeyValueStore
        else ∃ c cache,
          heap σ' !! kvs = Some (DjangoKeyValueStore c) ∧
          heap σ' !! c = Some (FieldDataCacheObj cache) ∧
          django_field_data_caches (self σ') !!
            context_key (ScopeIds.usage_id (scope_ids block)) = Some c
  | _, _ => False
  end.

(** A site root URL that makes [root + "/path"] absolute: not empty and not
    itself starting with a slash. *)
Definition is_absolute_root (url : string) : bool :=
  negb (String.eqb url "") && negb (startswith url "/").

(** The first state of a runtime: nothing emitted yet. *)
Definition initial_state (rt : XBlockRuntime) (h : list Obj) : State :=
  mkState rt h [].

End Invariants.

(** ** A small platform, for running the methods

    A platform whose [FieldDataCache] is the list of blocks it holds, whose
    database is down for the learning context ["lib:Org:Down"], and whose
    views return one fragment with a relative and an absolute resource. *)

Definition demo_platform : Platform := {|
  FieldDataCache := list XBlock;
  FieldDataCache_init := λ blocks course_id _ _ _,
    if String.eqb course_id "lib:Org:Down"
    then inl (Raised "DatabaseError") else inr blocks;
  add_blocks_to_cache := λ cache blocks, (cache ++ blocks, None);
  get_xblock_id_for_anonymous_user := λ _, UidStr "anon5f2c";
  completion_tracking_enabled := true;
  context_dict_for_learning_context := λ ck, {[ "course_id" := VStr ck ]};
  get_site_root_url := "https://lms.example.org";
  anonymous_id_for_user := λ _, "0123abcd";
  anonymous_student_id := λ _, inr "0123abcd";
  Runtime_service := λ _ _, inr None;
  wrap_fragment := λ f new_content,
    mkFragment new_content (resources f) None None VNone;
  replace_urls := λ _ text, text
|}.

Definition demo_declaration (service_name : string) : option string :=
  if decide (service_name = "field-data") then Some "need"
  else if decide (service_name = "i18n") then Some "want"
  else None.

Definition demo_block_in (ck : LearningContextKey) (name : string) : XBlock :=
  mkXBlock (ScopeIds.mk (Some (UidInt 7)) "html" name (mkUsageKey ck name))
           demo_declaration.

Definition demo_block : XBlock := demo_block_in "lib:Org:Lib" "intro".
Definition demo_block2 : XBlock := demo_block_in "lib:Org:Lib" "quiz".
Definition demo_block_down : XBlock := demo_block_in "lib:Org:Down" "intro".

Definition alice : UserType := mkUser false 7 false.
Definition guest : UserType := mkUser true 0 false.

(** A runtime made by [get_runtime] on a new system, before any call. *)
Definition demo_state (mode : StudentDataMode) (usr : option UserType)
    : @State demo_platform :=
  let '(sys, h) := @XBlockRuntimeSystem_init demo_platform mode [] in
  @initial_state demo_platform (@XBlockRuntime_init demo_platform sys usr) h.

Definition demo_fragment : Fragment :=
  mkFragment "<p>Hello</p>"
    [mkResource "url" "/static/bundle.js" "application/javascript" "foot";
     mkResource "url" "https://cdn.example.org/a.css" "text/css" "head";
     mkResource "text" "/* css */" "text/css" "head"]
    None None VNone.

Definition demo_render (block : XBlock) (view_name : string)
    (context : option (gmap string Value)) : @M demo_platform Fragment :=
  λ σ, (inr demo_fragment, σ).

Definition demo_event : gmap string Value :=
  {[ "value" := VInt 3; "max_value" := VInt 4 ]}.

(** ** [XBlockRuntime.handler_url] *)

(** [str.endswith]: some suffix of [s] is [suffix]. *)
Fixpoint endswith (s suffix : string) : bool :=
  String.eqb s suffix ||
  match s with
  | EmptyString => false
  | String _ s' => endswith s' suffix
  end.

(** [sub in s] on strings: [sub] starts at some position of [s]. *)
Fixpoint str_in (sub s : string) : bool :=
  String.prefix sub s ||
  match s with
  | EmptyString => false
  | String _ s' => str_in sub s'
  end.

(** [handler_url], with the system's [handler_url] callable as
    [system_handler_url]; [thirdparty] only logs a warning. *)
Definition handler_url
    (system_handler_url : UsageKey → string → option UserType → string)
    (rt : XBlockRuntime) (block : XBlock) (handler_name : string)
    (suffix query : string) (thirdparty : bool) : string :=
  let url :=
    system_handler_url (ScopeIds.usage_id (scope_ids block)) handler_name
      (user rt) in
  let url :=
    if negb (String.eqb suffix "") then
      (if negb (endswith url "/") then url +:+ "/" else url) +:+ suffix
    else url in
  let url :=
    if negb (String.eqb query "") then
      (url +:+ (if str_in "?" url then "&" else "?")) +:+ query
    else url in
  url.

(** ** More relations between states *)

Section MoreInvariants.
Context `{Platform}.

(** A runtime whose student data is kept in memory, or that has no user:
    the branches of [_init_field_data_for_block] that do not reach the
    database. *)
Definition in_memory (rt : XBlockRuntime) : bool :=
  match user rt with
  | None => true
  | Some u =>
      if is_anonymous u then is_anon_user_id (user_id rt)
      else bool_decide (student_data_mode (system rt) = Ephemeral)
  end.

(** Every field data in [block_field_datas] is a [SplitFieldData] built by
    the runtime for its system, cached under one key only. *)
Record field_datas_wf (σ : State) : Prop := {
  field_datas_split : ∀ k field_data,
    block_field_datas (self σ) !! k = Some (Some field_data) →
    ∃ store,
      heap σ !! field_data =
        Some (SplitFieldData (scope_mappings_for (system (self σ)) store));
  field_datas_inj : ∀ k1 k2 field_data,
    block_field_datas (self σ) !! k1 = Some (Some field_data) →
    block_field_datas (self σ) !! k2 = Some (Some field_data) →
    k1 = k2
}.

(** Nothing of the database-backed branch has happened: no cache is
    registered and no cached field data is [None]. *)
Record no_database_use (σ : State) : Prop := {
  no_database_in_memory : in_memory (self σ) = true;
  no_database_caches : django_field_data_caches (self σ) = ∅;
  no_database_failures : ∀ k, block_field_datas (self σ) !! k ≠ Some None
}.

(** The [FieldDataCache] behind a field data object: from the
    [SplitFieldData] to the store of [Scope.user_state], to its key-value
    store, to the cache a [DjangoKeyValueStore] reads. *)
Definition cache_behind (h : list Obj) (field_data : loc) : option loc :=
  match h !! field_data with
  | Some (SplitFieldData scope_mappings) =>
      match _field_data scope_mappings Scope.user_state with
      | Some (Some store) =>
          match h !! store with
          | Some (KvsFieldData kvs) =>
              match h !! kvs with
              | Some (DjangoKeyValueStore c) => Some c
              | _ => None
              end
          | _ => None
          end
      | _ => None
      end
  | _ => None
  end.

End MoreInvariants.

Definition demo_handler_url (usage_key : UsageKey) (handler_name : string)
    (usr : option UserType) : string :=
  "https://lms.example.org/xblock/" +:+ block_id usage_key +:+ "/handler/"
    +:+ handler_name.

Definition demo_block_down2 : XBlock := demo_block_in "lib:Org:Down" "quiz".

(** The runtime of a registered user in [Persisted] mode, new and after
    the field data of [demo_block] was served. *)
Definition demo_alice : @State demo_platform :=
  demo_state Persisted (Some alice).

Definition demo_alice_served : @State demo_platform :=
  @exec demo_platform _ (@service demo_platform demo_block "field-data")
    demo_alice.

(** * Properties *)

Section Properties.
Context `{Platform}.

Implicit Types (σ : State) (block : XBlock) (rt : XBlockRuntime).

Ltac unfold_M :=
  unfold mbind, mret, M_bind, M_ret, raise, get_self, put_self, alloc, emit,
    assert_, try_except, getitem in *.

Ltac norm_heap :=
  cbn; unfold with_heap, with_self; cbn;
  rewrite ?length_app, ?length_insert; cbn; rewrite <- ?app_assoc; cbn.

(** ** [_init_field_data_for_block], branch by branch *)

Lemma init_no_user σ block :
  user (self σ) = None →
  _init_field_data_for_block block σ =
    (inr (length (heap σ)),
     with_heap (heap σ ++
       [SplitFieldData (scope_mappings_for (system (self σ)) None)]) σ).
Proof.
  intros Hu. unfold _init_field_data_for_block. unfold_M. rewrite Hu. done.
Qed.

Lemma init_in_memory σ block u :
  user (self σ) = Some u →
  (is_anonymous u = true ∧ is_anon_user_id (user_id (self σ)) = true) ∨
  (is_anonymous u = false ∧ student_data_mode (system (self σ)) = Ephemeral) →
  _init_field_data_for_block block σ =
    (inr (S (S (length (heap σ)))),
     with_heap (heap σ ++
       [EphemeralKeyValueStore; KvsFieldData (length (heap σ));
        SplitFieldData (scope_mappings_for (system (self σ))
                          (Some (S (length (heap σ)))))]) σ).
Proof.
  intros Hu [[Ha Hid]|[Ha Hm]]; unfold _init_field_data_for_block; unfold_M;
    rewrite Hu, Ha; [rewrite Hid|rewrite decide_True by done];
    destruct σ as [rt h ev]; norm_heap; repeat f_equal; lia.
Qed.

Lemma init_assertion_fails σ block u :
  user (self σ) = Some u → is_anonymous u = true →
  is_anon_user_id (user_id (self σ)) = false →
  _init_field_data_for_block block σ = (inl AssertionError, σ).
Proof.
  intros Hu Ha Hid. unfold _init_field_data_for_block. unfold_M.
  by rewrite Hu, Ha, Hid.
Qed.

Section Persisted.
Variables (σ : State) (block : XBlock) (u : UserType).
Hypothesis Huser : user (self σ) = Some u.
Hypothesis Hregistered : is_anonymous u = false.
Hypothesis Hmode : student_data_mode (system (self σ)) = Persisted.

Let ck := context_key (ScopeIds.usage_id (scope_ids block)).
Let n := length (heap σ).

Lemma init_persisted_new cache :
  django_field_data_caches (self σ) !! ck = None →
  FieldDataCache_init [block] ck u None false = inr cache →
  _init_field_data_for_block block σ =
    (inr (S (S (S n))),
     mkState (set_django_field_data_cache ck n (self σ))
       (heap σ ++
          [FieldDataCacheObj cache; DjangoKeyValueStore n; KvsFieldData (S n);
           SplitFieldData (scope_mappings_for (system (self σ))
                             (Some (S (S n))))])
       (emitted σ)).
Proof.
  intros Hnone Hinit. unfold _init_field_data_for_block, new_FieldDataCache.
  unfold_M. rewrite Huser, Hregistered, Hmode.
  rewrite decide_False by done. fold ck. rewrite Hnone, Hinit.
  subst n. destruct σ as [rt h ev]; norm_heap. repeat f_equal; lia.
Qed.

Lemma init_persisted_new_raises e :
  django_field_data_caches (self σ) !! ck = None →
  FieldDataCache_init [block] ck u None false = inl e →
  _init_field_data_for_block block σ = (inl e, σ).
Proof.
  intros Hnone Hinit. unfold _init_field_data_for_block, new_FieldDataCache.
  unfold_M. rewrite Huser, Hregistered, Hmode.
  rewrite decide_False by done. fold ck. by rewrite Hnone, Hinit.
Qed.

Lemma init_persisted_reuse c cache :
  django_field_data_caches (self σ) !! ck = Some c →
  heap σ !! c = Some (FieldDataCacheObj cache) →
  (add_blocks_to_cache cache [block]).2 = None →
  _init_field_data_for_block block σ =
    (inr (S (S n)),
     with_heap
       (<[c := FieldDataCacheObj (add_blocks_to_cache cache [block]).1]>
          (heap σ) ++
        [DjangoKeyValueStore c; KvsFieldData n;
         SplitFieldData (scope_mappings_for (system (self σ)) (Some (S n)))])
       σ).
Proof.
  intros Hsome Hobj Hadd.
  unfold _init_field_data_for_block, do_add_blocks_to_cache.
  unfold_M. rewrite Huser, Hregistered, Hmode.
  rewrite decide_False by done. fold ck. rewrite Hsome, Hobj, Hadd.
  subst n. destruct σ as [rt h ev]; norm_heap. repeat f_equal; lia.
Qed.

Lemma init_persisted_reuse_raises c cache e :
  django_field_data_caches (self σ) !! ck = Some c →
  heap σ !! c = Some (FieldDataCacheObj cache) →
  (add_blocks_to_cache cache [block]).2 = Some e →
  _init_field_data_for_block block σ =
    (inl e,
     with_heap
       (<[c := FieldDataCacheObj (add_blocks_to_cache cache [block]).1]>
          (heap σ)) σ).
Proof.
  intros Hsome Hobj Hadd.
  unfold _init_field_data_for_block, do_add_blocks_to_cache.
  unfold_M. rewrite Huser, Hregistered, Hmode.
  rewrite decide_False by done. fold ck. by rewrite Hsome, Hobj, Hadd.
Qed.

Lemma init_persisted_bad_cache c :
  django_field_data_caches (self σ) !! ck = Some c →
  ¬ (∃ cache, heap σ !! c = Some (FieldDataCacheObj cache)) →
  _init_field_data_for_block block σ = (inl (Raised "AttributeError"), σ).
Proof.
  intros Hsome Hobj.
  unfold _init_field_data_for_block, do_add_blocks_to_cache.
  unfold_M. rewrite Huser, Hregistered, Hmode.
  rewrite decide_False by done. fold ck. rewrite Hsome.
  destruct (heap σ !! c) as [[]|]; try done. destruct Hobj; eauto.
Qed.
End Persisted.

(** ** What the methods keep of the state *)

Lemma heap_extends_refl (h : list Obj) : heap_extends h h.
Proof. intros l o Hl. destruct o; eauto. Qed.

Lemma heap_extends_trans (h1 h2 h3 : list Obj) :
  heap_extends h1 h2 → heap_extends h2 h3 → heap_extends h1 h3.
Proof.
  intros H12 H23 l o Hl. specialize (H12 l o Hl).
  destruct o; try (by apply (H23 l _ H12)).
  destruct H12 as [c' Hc']. apply (H23 l _ Hc').
Qed.

Lemma heap_extends_app (h t : list Obj) : heap_extends h (h ++ t).
Proof.
  intros l o Hl.
  assert (Hl' : (h ++ t) !! l = Some o) by by apply lookup_app_l_Some.
  destruct o; eauto.
Qed.

Lemma heap_extends_insert (h : list Obj) c cache cache' :
  h !! c = Some (FieldDataCacheObj cache) →
  heap_extends h (<[c := FieldDataCacheObj cache']> h).
Proof.
  intros Hc l o Hl. destruct (decide (l = c)) as [->|Hne].
  - rewrite Hc in Hl. injection Hl as <-. exists cache'.
    apply list_lookup_insert_eq. by eapply lookup_lt_Some.
  - rewrite list_lookup_insert_ne by done. destruct o; eauto.
Qed.

Lemma is_cache_or_not (h : list Obj) (c : nat) :
  (∃ cache, h !! c = Some (FieldDataCacheObj cache)) ∨
  ¬ (∃ cache, h !! c = Some (FieldDataCacheObj cache)).
Proof.
  destruct (h !! c) as [[]|]; eauto; right; intros [? ?]; discriminate.
Qed.

Lemma evolves_refl σ : evolves σ σ.
Proof. split; auto using heap_extends_refl. Qed.

Lemma evolves_trans σ1 σ2 σ3 : evolves σ1 σ2 → evolves σ2 σ3 → evolves σ1 σ3.
Proof.
  intros [] []. split; try congruence; eauto using heap_extends_trans.
Qed.

(** The branches of [_init_field_data_for_block] at a state: the goal is
    split by the conditions the method tests and the call is replaced by its
    result in each case. *)
Ltac init_cases σ block :=
  let u := fresh "u" in let c := fresh "c" in let cache := fresh "cache" in
  let e := fresh "e" in
  destruct (user (self σ)) as [u|] eqn:Hu;
    [destruct (is_anonymous u) eqn:Ha;
      [destruct (is_anon_user_id (user_id (self σ))) eqn:Hid;
        [erewrite (init_in_memory σ block) by eauto
        |erewrite (init_assertion_fails σ block) by eauto]
      |destruct (student_data_mode (system (self σ))) eqn:Hm;
        [erewrite (init_in_memory σ block) by eauto
        |destruct (django_field_data_caches (self σ) !!
                      context_key (ScopeIds.usage_id (scope_ids block)))
            as [c|] eqn:Hc;
          [destruct (is_cache_or_not (heap σ) c) as [[cache Hobj]|Hbad];
            [destruct (add_blocks_to_cache cache [block]).2 as [e|] eqn:Hadd;
              [erewrite (init_persisted_reuse_raises σ block) by eauto
              |erewrite (init_persisted_reuse σ block) by eauto]
            |erewrite (init_persisted_bad_cache σ block) by eauto]
          |destruct (FieldDataCache_init [block]
                       (context_key (ScopeIds.usage_id (scope_ids block)))
                       u None false) as [e|cache] eqn:Hinit;
            [erewrite (init_persisted_new_raises σ block) by eauto
            |erewrite (init_persisted_new σ block) by eauto]]]]
    |rewrite (init_no_user σ block) by done].

Lemma init_evolves σ block :
  evolves σ (exec (_init_field_data_for_block block) σ).
Proof.
  unfold exec. init_cases σ block; try apply evolves_refl;
    split; cbn; eauto using heap_extends_app, heap_extends_insert,
      heap_extends_trans.
  intros k c Hk. rewrite lookup_insert_ne; [done|congruence].
Qed.

Lemma init_block_field_datas σ block :
  block_field_datas (self (exec (_init_field_data_for_block block) σ)) =
  block_field_datas (self σ).
Proof. unfold exec. init_cases σ block; done. Qed.

Lemma init_emitted σ block :
  emitted (exec (_init_field_data_for_block block) σ) = emitted σ.
Proof. unfold exec. init_cases σ block; done. Qed.

Lemma lookup_alloc (h t : list Obj) (n i : nat) :
  length h = n → (h ++ t) !! (i + n)%nat = t !! i.
Proof.
  intros <-. rewrite lookup_app_r by lia. f_equal. lia.
Qed.

Lemma lookup_alloc_0 (h t : list Obj) a n :
  length h = n → (h ++ a :: t) !! n = Some a.
Proof. intros Hn. exact (lookup_alloc h (a :: t) n 0 Hn). Qed.

Lemma lookup_alloc_1 (h t : list Obj) a b n :
  length h = n → (h ++ a :: b :: t) !! S n = Some b.
Proof. intros Hn. exact (lookup_alloc h (a :: b :: t) n 1 Hn). Qed.

Lemma lookup_alloc_2 (h t : list Obj) a b c n :
  length h = n → (h ++ a :: b :: c :: t) !! S (S n) = Some c.
Proof. intros Hn. exact (lookup_alloc h (a :: b :: c :: t) n 2 Hn). Qed.

Lemma lookup_alloc_3 (h t : list Obj) a b c d n :
  length h = n → (h ++ a :: b :: c :: d :: t) !! S (S (S n)) = Some d.
Proof. intros Hn. exact (lookup_alloc h (a :: b :: c :: d :: t) n 3 Hn). Qed.

Lemma init_caches_wf σ block :
  caches_wf σ → caches_wf (exec (_init_field_data_for_block block) σ).
Proof.
  intros Hwf. pose proof (init_evolves σ block) as Hev. revert Hev.
  unfold exec. init_cases σ block; intros Hev k c' Hk; cbn in *;
    try (destruct (Hwf k c' Hk) as [cache0 Hc0];
         apply (evolves_heap _ _ Hev) in Hc0; exact Hc0).
  destruct (decide (context_key (ScopeIds.usage_id (scope_ids block)) = k))
    as [<-|Hne].
  - rewrite lookup_insert_eq in Hk. injection Hk as <-. exists cache.
    by apply lookup_alloc_0.
  - rewrite lookup_insert_ne in Hk by done.
    destruct (Hwf k c' Hk) as [cache0 Hc0].
    apply (evolves_heap _ _ Hev) in Hc0; exact Hc0.
Qed.

Lemma init_returns σ block field_data σ' :
  _init_field_data_for_block block σ = (inr field_data, σ') →
  heap σ !! field_data = None ∧
  ∃ student_data_store,
    heap σ' !! field_data =
      Some (SplitFieldData
              (scope_mappings_for (system (self σ)) student_data_store)) ∧
    is_student_data_store σ σ' block student_data_store.
Proof.
  unfold is_student_data_store.
  init_cases σ block; intros Heq; simplify_eq; cbn.
  - split; [apply lookup_ge_None; lia|].
    eexists (Some _). split; [by apply lookup_alloc_2|].
    eexists. split; [by apply lookup_alloc_1|].
    split; [apply lookup_ge_None; lia|by apply lookup_alloc_0].
  - split; [apply lookup_ge_None; lia|].
    eexists (Some _). split; [by apply lookup_alloc_2|].
    eexists. split; [by apply lookup_alloc_1|].
    cbn.
    split; [apply lookup_ge_None; lia|by apply lookup_alloc_0].
  - split; [apply lookup_ge_None; lia|].
    eexists (Some _). split; [apply lookup_alloc_2, length_insert|].
    eexists. split; [apply lookup_alloc_1, length_insert|].
    cbn. eexists _, _.
    split; [apply lookup_alloc_0, length_insert|]. split; [|done].
    apply lookup_app_l_Some, list_lookup_insert_eq. by eapply lookup_lt_Some.
  - split; [apply lookup_ge_None; lia|].
    eexists (Some _). split; [by apply lookup_alloc_3|].
    eexists. split; [by apply lookup_alloc_2|].
    cbn. eexists _, _.
    split; [by apply lookup_alloc_1|]. split; [by apply lookup_alloc_0|].
    apply lookup_insert_eq.
  - split; [apply lookup_ge_None; lia|].
    exists None. split; [by apply lookup_alloc_0|done].
Qed.

(** ** [service], for ["field-data"] and the rest *)

Lemma service_not_requested σ block service_name :
  service_declaration block service_name = None →
  service block service_name σ = (inl (NoSuchServiceError service_name), σ).
Proof. intros Hd. unfold service. by rewrite Hd. Qed.

Lemma service_field_data_cached σ block v :
  service_declaration block "field-data" ≠ None →
  block_field_datas (self σ) !! scope_ids block = Some v →
  service block "field-data" σ = (inr (FieldDataRef <$> v), σ).
Proof.
  intros Hd Hk. unfold service.
  destruct (service_declaration block "field-data"); [|done].
  rewrite decide_True by done. unfold_M.
  rewrite decide_False by congruence. by rewrite Hk.
Qed.

Lemma service_field_data_first σ block :
  service_declaration block "field-data" ≠ None →
  block_field_datas (self σ) !! scope_ids block = None →
  service block "field-data" σ =
    match _init_field_data_for_block block σ with
    | (inr field_data, σ1) =>
        (inr (Some (FieldDataRef field_data)),
         with_self (set_block_field_data (scope_ids block) (Some field_data)
                      (self σ1)) σ1)
    | (inl e, σ1) =>
        (inl e,
         with_self (set_block_field_data (scope_ids block) None (self σ1)) σ1)
    end.
Proof.
  intros Hd Hk. unfold service.
  destruct (service_declaration block "field-data"); [|done].
  rewrite decide_True by done. unfold_M.
  rewrite decide_True by done.
  destruct (_init_field_data_for_block block σ) as [[e|fd] σ1]; cbn; [done|].
  by rewrite lookup_insert_eq.
Qed.

Lemma set_block_field_data_evolves σ k v :
  block_field_datas (self σ) !! k = None →
  evolves σ (with_self (set_block_field_data k v (self σ)) σ).
Proof.
  intros Hk. split; cbn; auto using heap_extends_refl.
  intros k' v' Hk'. rewrite lookup_insert_ne; [done|congruence].
Qed.

Lemma service_evolves σ block service_name :
  evolves σ (exec (service block service_name) σ).
Proof.
  unfold exec.
  destruct (service_declaration block service_name) as [d|] eqn:Hd;
    [|rewrite service_not_requested by done; apply evolves_refl].
  destruct (decide (service_name = "field-data")) as [->|Hne].
  - destruct (block_field_datas (self σ) !! scope_ids block) as [v|] eqn:Hk.
    + rewrite (service_field_data_cached σ block v) by congruence.
      apply evolves_refl.
    + rewrite service_field_data_first by congruence.
      pose proof (init_evolves σ block) as Hev.
      pose proof (init_block_field_datas σ block) as Hbfd.
      unfold exec in Hev, Hbfd.
      destruct (_init_field_data_for_block block σ) as [[e|fd] σ1]; cbn in *;
        (eapply evolves_trans; [exact Hev|]);
        apply set_block_field_data_evolves; congruence.
  - unfold service. rewrite Hd. rewrite decide_False by done.
    unfold get_service. unfold_M.
    repeat case_decide; cbn; try apply evolves_refl;
      repeat case_match; cbn; apply evolves_refl.
Qed.

Lemma service_caches_wf σ block service_name :
  caches_wf σ → caches_wf (exec (service block service_name) σ).
Proof.
  intros Hwf. unfold exec.
  destruct (service_declaration block service_name) as [d|] eqn:Hd;
    [|by rewrite service_not_requested by done].
  destruct (decide (service_name = "field-data")) as [->|Hne].
  - destruct (block_field_datas (self σ) !! scope_ids block) as [v|] eqn:Hk.
    + by rewrite (service_field_data_cached σ block v) by congruence.
    + rewrite service_field_data_first by congruence.
      pose proof (init_caches_wf σ block Hwf) as Hwf'. unfold exec in Hwf'.
      by destruct (_init_field_data_for_block block σ) as [[e|fd] σ1].
  - unfold service. rewrite Hd. rewrite decide_False by done.
    unfold get_service. unfold_M.
    repeat case_decide; cbn; try done; repeat case_match; cbn; done.
Qed.

Lemma service_calls_evolves calls σ : evolves σ (service_calls calls σ).
Proof.
  revert σ. induction calls as [|[block service_name] calls IH]; intros σ; cbn.
  - apply evolves_refl.
  - eapply evolves_trans; [apply service_evolves|apply IH].
Qed.

Lemma service_calls_caches_wf calls σ :
  caches_wf σ → caches_wf (service_calls calls σ).
Proof.
  revert σ. induction calls as [|[block service_name] calls IH]; intros σ Hwf;
    cbn; [done|]. by apply IH, service_caches_wf.
Qed.

(** ** Field data: the claims *)

Lemma scope_mappings_for_lookup sys store :
  let m := scope_mappings_for sys store in
  _field_data m Scope.content = Some (Some (authored_data_store sys)) ∧
  _field_data m Scope.settings = Some (Some (authored_data_store sys)) ∧
  _field_data m Scope.parent = Some (Some (authored_data_store sys)) ∧
  _field_data m Scope.children = Some (Some (children_data_store sys)) ∧
  _field_data m Scope.user_state_summary = Some store ∧
  _field_data m Scope.user_state = Some store ∧
  _field_data m Scope.user_info = Some store ∧
  _field_data m Scope.preferences = Some store.
Proof.
  unfold _field_data, scope_mappings_for. cbn.
  repeat split; by simplify_map_eq.
Qed.

(** C1. [_init_field_data_for_block] selects the student data store by the
    user and the mode, for a runtime whose anonymous user has the id the
    method asserts: without a user there is no store (the user scopes are
    mapped to [None], and an access to them has no store to go to); for an anonymous user, and in [Ephemeral] mode, the
    store is a [KvsFieldData] over an [EphemeralKeyValueStore], both new; for
    a registered user in [Persisted] mode it is a [KvsFieldData] over a
    [DjangoKeyValueStore] over a [FieldDataCache], the one just built for the
    learning context or the one already registered for it. *)
Theorem init_field_data_selects_student_store σ block :
  anonymous_user_id_ok (self σ) = true →
  let rt := self σ in
  let n := length (heap σ) in
  let ck := context_key (ScopeIds.usage_id (scope_ids block)) in
  (user rt = None →
     _init_field_data_for_block block σ =
       (inr n,
        with_heap (heap σ ++
          [SplitFieldData (scope_mappings_for (system rt) None)]) σ) ∧
     ∀ scope,
       scope ∈ [Scope.user_state_summary; Scope.user_state; Scope.user_info;
                Scope.preferences] →
       store_for_access (scope_mappings_for (system rt) None) scope =
         inl (Raised "AttributeError"))
  ∧ (∀ u, user rt = Some u →
       is_anonymous u = true ∨ student_data_mode (system rt) = Ephemeral →
       _init_field_data_for_block block σ =
         (inr (S (S n)),
          with_heap (heap σ ++
            [EphemeralKeyValueStore; KvsFieldData n;
             SplitFieldData (scope_mappings_for (system rt) (Some (S n)))]) σ))
  ∧ (∀ u, user rt = Some u → is_anonymous u = false →
       student_data_mode (system rt) = Persisted →
       (∀ cache,
          django_field_data_caches rt !! ck = None →
          FieldDataCache_init [block] ck u None false = inr cache →
          _init_field_data_for_block block σ =
            (inr (S (S (S n))),
             mkState (set_django_field_data_cache ck n rt)
               (heap σ ++
                  [FieldDataCacheObj cache; DjangoKeyValueStore n;
                   KvsFieldData (S n);
                   SplitFieldData (scope_mappings_for (system rt)
                                     (Some (S (S n))))])
               (emitted σ)))
       ∧ (∀ c cache,
            django_field_data_caches rt !! ck = Some c →
            heap σ !! c = Some (FieldDataCacheObj cache) →
            (add_blocks_to_cache cache [block]).2 = None →
            _init_field_data_for_block block σ =
              (inr (S (S n)),
               with_heap
                 (<[c := FieldDataCacheObj
                           (add_blocks_to_cache cache [block]).1]> (heap σ) ++
                  [DjangoKeyValueStore c; KvsFieldData n;
                   SplitFieldData (scope_mappings_for (system rt)
                                     (Some (S n)))]) σ))
       ∧ (∀ field_data σ',
            _init_field_data_for_block block σ = (inr field_data, σ') →
            ∃ store kvs c cache,
              heap σ' !! field_data =
                Some (SplitFieldData
                        (scope_mappings_for (system rt) (Some store))) ∧
              heap σ' !! store = Some (KvsFieldData kvs) ∧
              heap σ' !! kvs = Some (DjangoKeyValueStore c) ∧
              heap σ' !! c = Some (FieldDataCacheObj cache) ∧
              django_field_data_caches (self σ') !! ck = Some c)).
Proof.
  intros Hok rt n ck. split; [|split].
  - intros Hu. split; [by apply init_no_user|].
    intros scope Hscope. unfold store_for_access.
    destruct (scope_mappings_for_lookup (system rt) None)
      as (_ & _ & _ & _ & H1 & H2 & H3 & H4).
    repeat (apply elem_of_cons in Hscope as [->|Hscope];
            [by rewrite ?H1, ?H2, ?H3, ?H4|]).
    by apply elem_of_nil in Hscope.
  - intros u Hu Hcase. apply (init_in_memory σ block u Hu).
    unfold anonymous_user_id_ok in Hok. fold rt in Hok. rewrite Hu in Hok.
    destruct (is_anonymous u) eqn:Ha; [by left|right].
    destruct Hcase; [done|by split].
  - intros u Hu Ha Hm. split; [|split].
    + intros cache. by apply (init_persisted_new σ block u).
    + intros c cache. by apply (init_persisted_reuse σ block u).
    + intros fd σ' Hret. apply init_returns in Hret as (_ & store & Hfd & Hst).
      unfold is_student_data_store in Hst. fold rt in Hst.
      rewrite Hu in Hst. destruct store as [s|]; [|done].
      destruct Hst as (kvs & Hs & Hkvs). rewrite Ha, Hm in Hkvs. cbn in Hkvs.
      destruct Hkvs as (c & cache & ? & ? & ?). by exists s, kvs, c, cache.
Qed.

(** C3. The field data [_init_field_data_for_block] returns is a new
    [SplitFieldData] that maps [content], [settings] and [parent] to the
    system's [authored_data_store], [children] to its [children_data_store],
    and the four user scopes to the student data store selected for the
    block. *)
Theorem init_field_data_routes_scopes σ block field_data σ' :
  _init_field_data_for_block block σ = (inr field_data, σ') →
  heap σ !! field_data = None ∧
  ∃ scope_mappings student_data_store,
    heap σ' !! field_data = Some (SplitFieldData scope_mappings) ∧
    is_student_data_store σ σ' block student_data_store ∧
    _field_data scope_mappings Scope.content =
      Some (Some (authored_data_store (system (self σ)))) ∧
    _field_data scope_mappings Scope.settings =
      Some (Some (authored_data_store (system (self σ)))) ∧
    _field_data scope_mappings Scope.parent =
      Some (Some (authored_data_store (system (self σ)))) ∧
    _field_data scope_mappings Scope.children =
      Some (Some (children_data_store (system (self σ)))) ∧
    _field_data scope_mappings Scope.user_state_summary =
      Some student_data_store ∧
    _field_data scope_mappings Scope.user_state = Some student_data_store ∧
    _field_data scope_mappings Scope.user_info = Some student_data_store ∧
    _field_data scope_mappings Scope.preferences = Some student_data_store.
Proof.
  intros Hret. apply init_returns in Hret as (Hfresh & store & Hfd & Hst).
  split; [done|]. eexists _, store. split; [exact Hfd|]. split; [done|].
  apply scope_mappings_for_lookup.
Qed.

(** C2. A first [service(block, "field-data")] call that returns builds the
    field data with [_init_field_data_for_block] and stores it under the
    block's [scope_ids]; after any further [service] calls, a call for the
    same [scope_ids] returns that same object, which is unchanged in the
    heap, and leaves the whole state as it was: nothing is built again. *)
Theorem service_field_data_built_once σ block field_data σ1 :
  block_field_datas (self σ) !! scope_ids block = None →
  service block "field-data" σ = (inr (Some (FieldDataRef field_data)), σ1) →
  (∃ σ0,
     _init_field_data_for_block block σ = (inr field_data, σ0) ∧
     σ1 = with_self (set_block_field_data (scope_ids block) (Some field_data)
                       (self σ0)) σ0) ∧
  block_field_datas (self σ1) !! scope_ids block = Some (Some field_data) ∧
  ∀ calls block',
    scope_ids block' = scope_ids block →
    service_declaration block' "field-data" ≠ None →
    let σ2 := service_calls calls σ1 in
    service block' "field-data" σ2 = (inr (Some (FieldDataRef field_data)), σ2) ∧
    heap σ2 !! field_data = heap σ1 !! field_data.
Proof.
  intros Hk Hcall.
  assert (Hd : service_declaration block "field-data" ≠ None).
  { intros Hd. by rewrite service_not_requested in Hcall. }
  rewrite service_field_data_first in Hcall by done.
  destruct (_init_field_data_for_block block σ) as [[e|fd] σ0] eqn:Hinit;
    [done|]. injection Hcall as <- <-.
  assert (Hstored : block_field_datas
            (self (with_self (set_block_field_data (scope_ids block) (Some fd)
                                (self σ0)) σ0)) !! scope_ids block
          = Some (Some fd)) by apply lookup_insert_eq.
  split; [by exists σ0|]. split; [done|].
  intros calls block' Hsid Hd' σ2.
  pose proof (service_calls_evolves calls
    (with_self (set_block_field_data (scope_ids block) (Some fd) (self σ0)) σ0))
    as Hev. fold σ2 in Hev.
  split.
  - apply (service_field_data_cached σ2 block' (Some fd) Hd').
    rewrite Hsid. by apply (evolves_block_field_datas _ _ Hev).
  - apply init_returns in Hinit as (_ & store & Hfd & _).
    cbn. rewrite Hfd. apply (evolves_heap _ _ Hev) in Hfd. exact Hfd.
Qed.

(** C9. When [_init_field_data_for_block] raises during a
    [service(block, "field-data")] call, the call raises the same exception
    and leaves [None] under the block's [scope_ids]; after any further
    [service] calls, a call for the same [scope_ids] returns [None] and leaves
    the whole state as it was: the initialization is not tried again. *)
Theorem service_field_data_failure_cached σ block e σ0 :
  service_declaration block "field-data" ≠ None →
  block_field_datas (self σ) !! scope_ids block = None →
  _init_field_data_for_block block σ = (inl e, σ0) →
  let σ1 := with_self (set_block_field_data (scope_ids block) None (self σ0)) σ0 in
  service block "field-data" σ = (inl e, σ1) ∧
  block_field_datas (self σ1) !! scope_ids block = Some None ∧
  ∀ calls block',
    scope_ids block' = scope_ids block →
    service_declaration block' "field-data" ≠ None →
    let σ2 := service_calls calls σ1 in
    service block' "field-data" σ2 = (inr None, σ2).
Proof.
  intros Hd Hk Hinit σ1.
  assert (Hstored : block_field_datas (self σ1) !! scope_ids block = Some None)
    by apply lookup_insert_eq.
  split; [|split; [done|]].
  - rewrite service_field_data_first by done. by rewrite Hinit.
  - intros calls block' Hsid Hd' σ2.
    pose proof (service_calls_evolves calls σ1) as Hev. fold σ2 in Hev.
    apply (service_field_data_cached σ2 block' None Hd').
    rewrite Hsid. by apply (evolves_block_field_datas _ _ Hev).
Qed.

Lemma no_cache_allocated (h t : list Obj) (l : nat) cache :
  (∀ o, o ∈ t → ∀ cache', o ≠ FieldDataCacheObj cache') →
  (h ++ t) !! l = Some (FieldDataCacheObj cache) → (l < length h)%nat.
Proof.
  intros Ht Hl. destruct (decide (l < length h)%nat) as [|Hge]; [done|].
  rewrite lookup_app_r in Hl by lia.
  apply list_elem_of_lookup_2 in Hl. by destruct (Ht _ Hl cache).
Qed.

(** C4. In [Persisted] mode with a registered user: when no cache is
    registered for the block's learning context and the constructor returns,
    the initialization creates one [FieldDataCache] and registers it under
    the context key; when a cache is registered, the initialization keeps
    [django_field_data_caches] as it is, passes the block to that cache's
    [add_blocks_to_cache], builds the store over that cache and creates no
    [FieldDataCache]; and through any [service] calls a registered cache
    stays registered under its key. *)
Theorem one_field_data_cache_per_context σ block u :
  user (self σ) = Some u → is_anonymous u = false →
  student_data_mode (system (self σ)) = Persisted →
  caches_wf σ →
  let ck := context_key (ScopeIds.usage_id (scope_ids block)) in
  let n := length (heap σ) in
  (∀ cache,
     django_field_data_caches (self σ) !! ck = None →
     FieldDataCache_init [block] ck u None false = inr cache →
     let σ' := exec (_init_field_data_for_block block) σ in
     django_field_data_caches (self σ') =
       <[ck := n]> (django_field_data_caches (self σ)) ∧
     heap σ !! n = None ∧
     heap σ' !! n = Some (FieldDataCacheObj cache) ∧
     ∀ l cache', heap σ' !! l = Some (FieldDataCacheObj cache') →
       (l ≤ n)%nat)
  ∧ (∀ c,
       django_field_data_caches (self σ) !! ck = Some c →
       ∃ cache, heap σ !! c = Some (FieldDataCacheObj cache) ∧
       let σ' := exec (_init_field_data_for_block block) σ in
       django_field_data_caches (self σ') = django_field_data_caches (self σ) ∧
       heap σ' !! c =
         Some (FieldDataCacheObj (add_blocks_to_cache cache [block]).1) ∧
       (∀ l cache', heap σ' !! l = Some (FieldDataCacheObj cache') →
          (l < n)%nat) ∧
       (∀ field_data σ'',
          _init_field_data_for_block block σ = (inr field_data, σ'') →
          is_student_data_store σ σ'' block (Some (S n)) ∧
          heap σ'' !! n = Some (DjangoKeyValueStore c)))
  ∧ (∀ c calls,
       django_field_data_caches (self σ) !! ck = Some c →
       django_field_data_caches (self (service_calls calls σ)) !! ck = Some c ∧
       caches_wf (service_calls calls σ)).
Proof.
  intros Hu Ha Hm Hwf ck n. split; [|split].
  - intros cache Hnone Hinit σ'. subst σ'. unfold exec.
    rewrite (init_persisted_new σ block u Hu Ha Hm cache Hnone Hinit). cbn.
    split; [done|]. split; [apply lookup_ge_None; lia|].
    split; [by apply lookup_alloc_0|].
    intros l cache' Hl.
    change (heap σ ++ FieldDataCacheObj cache :: ?t)
      with (heap σ ++ [FieldDataCacheObj cache] ++ t) in Hl.
    rewrite app_assoc in Hl. apply no_cache_allocated in Hl.
    + rewrite length_app in Hl. cbn in Hl. lia.
    + intros o Ho cache''.
      repeat (apply elem_of_cons in Ho as [->|Ho]; [done|]).
      by apply elem_of_nil in Ho.
  - intros c Hc. destruct (Hwf _ _ Hc) as [cache Hobj]. exists cache.
    split; [done|]. intros σ'. subst σ'. unfold exec.
    destruct (add_blocks_to_cache cache [block]).2 as [e|] eqn:Hadd.
    + rewrite (init_persisted_reuse_raises σ block u Hu Ha Hm c cache e Hc
                 Hobj Hadd). cbn.
      split; [done|].
      split; [apply list_lookup_insert_eq; by eapply lookup_lt_Some|].
      split; [|intros ?? [=]].
      intros l cache' Hl. apply lookup_lt_Some in Hl.
      by rewrite length_insert in Hl.
    + rewrite (init_persisted_reuse σ block u Hu Ha Hm c cache Hc Hobj Hadd).
      cbn. split; [done|].
      split; [apply lookup_app_l_Some, list_lookup_insert_eq;
              by eapply lookup_lt_Some|].
      split.
      * intros l cache' Hl. apply no_cache_allocated in Hl.
        -- by rewrite length_insert in Hl.
        -- intros o Ho cache''.
      repeat (apply elem_of_cons in Ho as [->|Ho]; [done|]).
      by apply elem_of_nil in Ho.
      * intros fd σ'' [= <- <-]. unfold is_student_data_store.
        rewrite Hu, Ha, Hm. cbn.
        split; [|apply lookup_alloc_0, length_insert].
        exists n. split; [apply lookup_alloc_1, length_insert|].
        exists c, (add_blocks_to_cache cache [block]).1.
        split; [apply lookup_alloc_0, length_insert|]. split; [|done].
        apply lookup_app_l_Some, list_lookup_insert_eq.
        by eapply lookup_lt_Some.
  - intros c calls Hc. split.
    + by apply (evolves_django_field_data_caches _ _
                  (service_calls_evolves calls σ)).
    + by apply service_calls_caches_wf.
Qed.

(** ** The precondition of C1 on constructed runtimes *)

Lemma XBlockRuntime_init_user_id_ok sys (usr : option UserType) :
  (∀ u, is_anon_user_id (Some (get_xblock_id_for_anonymous_user u)) = true) →
  anonymous_user_id_ok (XBlockRuntime_init sys usr) = true.
Proof.
  intros Hanon. unfold anonymous_user_id_ok, XBlockRuntime_init. cbn.
  destruct usr as [u|]; [|done]. destruct (is_anonymous u); [apply Hanon|done].
Qed.

Lemma evolves_user_id_ok σ σ' :
  evolves σ σ' →
  anonymous_user_id_ok (self σ) = true → anonymous_user_id_ok (self σ') = true.
Proof.
  intros [_ Hu Hid _ _ _]. unfold anonymous_user_id_ok. by rewrite Hu, Hid.
Qed.

Lemma initial_state_caches_wf sys usr (h : list Obj) :
  caches_wf (initial_state (XBlockRuntime_init sys usr) h).
Proof. intros k c Hk. cbn in Hk. by rewrite lookup_empty in Hk. Qed.

(** ** Runtimes *)

(** C7. [get_runtime] returns a runtime object that did not exist before
    and leaves the earlier ones as they are; the new runtime belongs to the
    system and the user, has two empty dicts, and its [user_id] is [None]
    without a user, the id given by [get_xblock_id_for_anonymous_user] for an
    anonymous user and [user.id] for a registered one. *)
Theorem get_runtime_constructs_runtime sys (usr : option UserType)
    (runtimes : list XBlockRuntime) :
  let r := (get_runtime sys usr runtimes).1 in
  let runtimes' := (get_runtime sys usr runtimes).2 in
  runtimes !! r = None ∧
  (∀ l rt, runtimes !! l = Some rt → runtimes' !! l = Some rt) ∧
  ∃ rt, runtimes' !! r = Some rt ∧
    system rt = sys ∧ user rt = usr ∧
    block_field_datas rt = ∅ ∧ django_field_data_caches rt = ∅ ∧
    user_id rt =
      match usr with
      | None => None
      | Some u =>
          if is_anonymous u then Some (get_xblock_id_for_anonymous_user u)
          else Some (UidInt (id u))
      end.
Proof.
  cbn. split; [apply lookup_ge_None; lia|].
  split; [intros l rt Hl; by apply lookup_app_l_Some|].
  exists (XBlockRuntime_init sys usr). split; [|done].
  rewrite lookup_app_r by lia. by rewrite Nat.sub_diag.
Qed.

(** ** Events *)

Lemma log_event_to_tracking_log_emits σ block event_type event_data :
  ∃ log_context,
    log_context !! "asides" = Some (VDict []) ∧
    log_event_to_tracking_log block event_type event_data σ =
      (inr tt,
       mkState (self σ) (heap σ)
         (emitted σ ++ [server_track event_type log_context event_data])).
Proof.
  unfold log_event_to_tracking_log. unfold_M. eexists. split; [|done].
  apply lookup_insert_eq.
Qed.

(** C5. [publish] hands a ['grade'] event to [handle_grade_event] and a
    ['completion'] event to [handle_completion_event] when [user_id] is not
    [None]; every other event, and every event when [user_id] is [None], goes
    to [log_event_to_tracking_log], which writes it to the tracking log. *)
Theorem publish_dispatch σ block event_type event_data :
  (user_id (self σ) ≠ None → event_type = "grade" →
     publish block event_type event_data σ =
       handle_grade_event block event_data σ)
  ∧ (user_id (self σ) ≠ None → event_type = "completion" →
       publish block event_type event_data σ =
         handle_completion_event block event_data σ)
  ∧ (user_id (self σ) = None ∨
     (event_type ≠ "grade" ∧ event_type ≠ "completion") →
       publish block event_type event_data σ =
         log_event_to_tracking_log block event_type event_data σ ∧
       ∃ log_context,
         publish block event_type event_data σ =
           (inr tt,
            mkState (self σ) (heap σ)
              (emitted σ ++
                 [server_track event_type log_context event_data]))).
Proof.
  assert (Hlog : publish block event_type event_data σ =
                   log_event_to_tracking_log block event_type event_data σ →
    publish block event_type event_data σ =
      log_event_to_tracking_log block event_type event_data σ ∧
    ∃ log_context,
      publish block event_type event_data σ =
        (inr tt,
         mkState (self σ) (heap σ)
           (emitted σ ++ [server_track event_type log_context event_data]))).
  { intros Heq. split; [done|]. rewrite Heq.
    destruct (log_event_to_tracking_log_emits σ block event_type event_data)
      as (ctx & _ & Hctx). by exists ctx. }
  split; [|split].
  - intros Hid ->. unfold publish, get_event_handler. unfold_M.
    destruct (user_id (self σ)); [|done]. by rewrite decide_True.
  - intros Hid ->. unfold publish, get_event_handler. unfold_M.
    destruct (user_id (self σ)); [|done].
    rewrite decide_False by done. by rewrite decide_True.
  - intros Hcase. apply Hlog. unfold publish, get_event_handler. unfold_M.
    destruct (user_id (self σ)) as [uid|]; [|done].
    destruct Hcase as [|[Hg Hc]]; [done|]. by rewrite !decide_False.
Qed.

(** C10. For an anonymous user with a [user_id] that is not [None],
    [get_event_handler] selects [handle_grade_event] for a ['grade'] event,
    and publishing the event returns with the state as it was: no
    [SCORE_PUBLISHED] signal and no entry in the tracking log. *)
Theorem anonymous_grade_event_dropped σ block event_data u uid :
  user (self σ) = Some u → is_anonymous u = true →
  user_id (self σ) = Some uid →
  get_event_handler "grade" σ = (inr (Some handle_grade_event), σ) ∧
  publish block "grade" event_data σ = (inr tt, σ) ∧
  emitted (exec (publish block "grade" event_data) σ) = emitted σ.
Proof.
  intros Hu Ha Hid.
  assert (Hh : get_event_handler "grade" σ = (inr (Some handle_grade_event), σ)).
  { unfold get_event_handler. unfold_M. by rewrite Hid. }
  assert (Hp : publish block "grade" event_data σ = (inr tt, σ)).
  { unfold publish. unfold mbind, M_bind. rewrite Hh.
    unfold handle_grade_event. unfold_M. by rewrite Hu, Ha. }
  split; [done|]. split; [done|]. unfold exec. by rewrite Hp.
Qed.

(** ** Rendering *)

Lemma prefix_char_append (c : Ascii.ascii) (s t : string) :
  s ≠ "" →
  String.prefix (String c "") (s +:+ t) = String.prefix (String c "") s.
Proof.
  destruct s as [|a s]; [done|]. intros _.
  change (String a s +:+ t) with (String a (s +:+ t)).
  cbn [String.prefix].
  destruct (Ascii.ascii_dec c a); [|done]. destruct s, t; reflexivity.
Qed.

Lemma startswith_root_slash (root path : string) :
  is_absolute_root root = true → startswith (root +:+ path) "/" = false.
Proof.
  unfold is_absolute_root, startswith. intros Hroot.
  apply andb_true_iff in Hroot as [Hne Hslash].
  rewrite prefix_char_append.
  - by apply negb_true_iff.
  - intros ->. done.
Qed.

Lemma fix_resource_absolute (resource : FragmentResource) :
  is_absolute_root get_site_root_url = true →
  is_relative_url (fix_resource resource) = false.
Proof.
  intros Hroot. unfold fix_resource.
  destruct (is_relative_url resource) eqn:Hrel; [|done].
  unfold is_relative_url. cbn [kind data].
  rewrite startswith_root_slash by done.
  apply andb_false_r.
Qed.

Lemma fix_resource_id (resource : FragmentResource) :
  is_relative_url resource = false → fix_resource resource = resource.
Proof. intros Hrel. unfold fix_resource. by rewrite Hrel. Qed.

Lemma existsb_false_elem_of {A} (f : A → bool) (l : list A) x :
  existsb f l = false → x ∈ l → f x = false.
Proof.
  intros Hex Hx. destruct (f x) eqn:Hfx; [|done].
  rewrite <- Hex. symmetry. apply existsb_exists.
  exists x. split; [by apply list_elem_of_In|done].
Qed.

Section Rendering.
Variable Runtime_render :
  XBlock → string → option (gmap string Value) → M Fragment.

Lemma render_denied σ block view_name context :
  (match user (self σ) with None => true | Some u => is_anonymous u end)
    = true →
  view_name ≠ "public_view" →
  render Runtime_render block view_name context σ = (inl PermissionDenied, σ).
Proof.
  intros Hu Hv. unfold render. unfold_M. rewrite Hu.
  apply String.eqb_neq in Hv. by rewrite Hv.
Qed.

Lemma render_allowed σ block view_name context :
  (match user (self σ) with None => true | Some u => is_anonymous u end)
    = false ∨ view_name = "public_view" →
  render Runtime_render block view_name context σ =
    match Runtime_render block view_name context σ with
    | (inl e, σ') => (inl e, σ')
    | (inr fragment, σ') =>
        (inr (wrap_fragment
                (if existsb is_relative_url (resources fragment)
                 then from_dict (fix_frag_data (to_dict fragment))
                 else fragment)
                (replace_urls block
                   (content
                      (if existsb is_relative_url (resources fragment)
                       then from_dict (fix_frag_data (to_dict fragment))
                       else fragment)))),
         σ')
    end.
Proof.
  intros Hcase. unfold render. unfold_M.
  assert ((match user (self σ) with None => true | Some u => is_anonymous u end)
          && negb (String.eqb view_name "public_view") = false) as ->.
  { destruct Hcase as [->| ->]; [done|]. rewrite String.eqb_refl.
    apply andb_false_r. }
  by destruct (Runtime_render block view_name context σ) as [[e|f] σ'].
Qed.

(** C6. With a site root URL that is not empty and does not start with a
    slash, and a [wrap_fragment] that gives the fragment the new content
    and keeps its resources: a fragment [render] returns has no ['url']
    resource starting with a slash; its resources are those of the view's
    fragment, each relative ['url'] resource with the site root URL put
    before its data and the others as they were; and its content is the
    view's content after [replace_urls]. *)
Theorem render_makes_urls_absolute σ block view_name context fragment σ' :
  is_absolute_root get_site_root_url = true →
  (∀ f new_content, content (wrap_fragment f new_content) = new_content) →
  (∀ f new_content r,
     r ∈ resources (wrap_fragment f new_content) ↔ r ∈ resources f) →
  render Runtime_render block view_name context σ = (inr fragment, σ') →
  (∀ r, r ∈ resources fragment → is_relative_url r = false) ∧
  ∃ view_fragment,
    Runtime_render block view_name context σ = (inr view_fragment, σ') ∧
    (∀ r, r ∈ resources view_fragment →
       if is_relative_url r
       then mkResource (kind r) (get_site_root_url +:+ data r)
              (mimetype r) (placement r) ∈ resources fragment
       else r ∈ resources fragment) ∧
    (∀ r, r ∈ resources fragment →
       ∃ r0, r0 ∈ resources view_fragment ∧ r = fix_resource r0) ∧
    content fragment = replace_urls block (content view_fragment).
Proof.
  intros Hroot Hcontent Hres Hrender.
  assert (Hallowed :
    (match user (self σ) with None => true | Some u => is_anonymous u end)
      = false ∨ view_name = "public_view").
  { destruct (match user (self σ) with None => true | Some u => is_anonymous u end)
      eqn:Hu; [|by left]. right.
    destruct (decide (view_name = "public_view")) as [|Hv]; [done|].
    by rewrite render_denied in Hrender. }
  rewrite render_allowed in Hrender by done.
  destruct (Runtime_render block view_name context σ) as [[e|f0] σ0];
    [done|]. injection Hrender as <- <-.
  assert (Hmem : ∀ r,
    r ∈ resources
          (if existsb is_relative_url (resources f0)
           then from_dict (fix_frag_data (to_dict f0)) else f0) ↔
    ∃ r0, r0 ∈ resources f0 ∧ r = fix_resource r0).
  { intros r. destruct (existsb is_relative_url (resources f0)) eqn:Hex; cbn.
    - rewrite list_elem_of_fmap. split; intros (r0 & ? & ?); by exists r0.
    - split.
      + intros Hr. exists r. split; [done|]. symmetry.
        apply fix_resource_id. by eapply existsb_false_elem_of.
      + intros (r0 & Hr0 & ->). rewrite fix_resource_id; [done|].
        by eapply existsb_false_elem_of. }
  split.
  - intros r Hr. apply Hres, Hmem in Hr as (r0 & _ & ->).
    by apply fix_resource_absolute.
  - exists f0. split; [done|]. split; [|split].
    + intros r Hr.
      assert (Hfix : fix_resource r ∈
        resources (wrap_fragment
          (if existsb is_relative_url (resources f0)
           then from_dict (fix_frag_data (to_dict f0)) else f0)
          (replace_urls block
             (content (if existsb is_relative_url (resources f0)
                       then from_dict (fix_frag_data (to_dict f0))
                       else f0))))).
      { apply Hres, Hmem. by exists r. }
      unfold fix_resource in Hfix. by destruct (is_relative_url r).
    + intros r Hr. by apply Hres, Hmem in Hr.
    + rewrite Hcontent. by destruct (existsb is_relative_url (resources f0)).
Qed.

(** C8. [render] raises [PermissionDenied] for a runtime without a user
    or with an anonymous user when the view is not ['public_view'], with
    the state as it was and whatever the view would do; for ['public_view']
    the call goes through to the view for every user: [render] raises what
    the view raises and returns when the view returns. *)
Theorem render_permission_check σ block view_name context :
  ((user (self σ) = None ∨
    ∃ u, user (self σ) = Some u ∧ is_anonymous u = true) →
   view_name ≠ "public_view" →
   render Runtime_render block view_name context σ =
     (inl PermissionDenied, σ))
  ∧ match Runtime_render block "public_view" context σ with
    | (inl e, σ') =>
        render Runtime_render block "public_view" context σ = (inl e, σ')
    | (inr view_fragment, σ') =>
        ∃ fragment,
          render Runtime_render block "public_view" context σ =
            (inr fragment, σ')
    end.
Proof.
  split.
  - intros Hu Hv. apply render_denied; [|done].
    destruct Hu as [->|(u & -> & ->)]; done.
  - rewrite render_allowed by (by right).
    destruct (Runtime_render block "public_view" context σ) as [[e|f] σ'];
      eauto.
Qed.
End Rendering.

(** * Further properties of the runtime *)

(** ** [service]: what a call changes *)

Lemma init_caches_frame σ block ck :
  ck ≠ context_key (ScopeIds.usage_id (scope_ids block)) →
  django_field_data_caches (self (exec (_init_field_data_for_block block) σ))
    !! ck = django_field_data_caches (self σ) !! ck.
Proof.
  intros Hne. unfold exec. init_cases σ block; cbn; try done.
  by rewrite lookup_insert_ne.
Qed.

Lemma service_keeps_state σ block service_name :
  service_name ≠ "field-data" ∨ service_declaration block service_name = None →
  exec (service block service_name) σ = σ.
Proof.
  intros Hcase. unfold exec.
  destruct (service_declaration block service_name) as [d|] eqn:Hd;
    [|by rewrite service_not_requested].
  destruct Hcase as [Hne|]; [|done].
  unfold service. rewrite Hd. rewrite decide_False by done.
  unfold get_service. unfold_M.
  repeat case_decide; cbn; try done; repeat case_match; done.
Qed.

(** X1. Only a declared ["field-data"] request can change the state: a
    request for a service the block did not declare, and a request for any
    other service, leave the runtime, the heap and the emitted events as they
    were, whether the call returns or raises; such a call never returns a
    field data object. *)
Theorem service_other_services_keep_state σ block service_name :
  service_name ≠ "field-data" ∨ service_declaration block service_name = None →
  exec (service block service_name) σ = σ ∧
  ∀ field_data,
    (service block service_name σ).1 ≠ inr (Some (FieldDataRef field_data)).
Proof.
  intros Hcase. split; [by apply service_keeps_state|].
  intros fd.
  destruct (service_declaration block service_name) as [d|] eqn:Hd;
    [|by rewrite service_not_requested].
  destruct Hcase as [Hne|]; [|done].
  unfold service. rewrite Hd. rewrite decide_False by done.
  unfold get_service. unfold_M.
  repeat case_decide; cbn; try done; repeat case_match; cbn; try done.
  all: by destruct o.
Qed.

(** X2. A [service] call for a block writes [block_field_datas] only under
    the block's [scope_ids] and [django_field_data_caches] only under the
    block's learning context; it emits no event and never reassigns [system],
    [user] or [user_id]. *)
Theorem service_touches_own_entries σ block service_name :
  let σ' := exec (service block service_name) σ in
  (∀ k, k ≠ scope_ids block →
     block_field_datas (self σ') !! k = block_field_datas (self σ) !! k) ∧
  (∀ ck, ck ≠ context_key (ScopeIds.usage_id (scope_ids block)) →
     django_field_data_caches (self σ') !! ck =
     django_field_data_caches (self σ) !! ck) ∧
  emitted σ' = emitted σ ∧
  system (self σ') = system (self σ) ∧
  user (self σ') = user (self σ) ∧
  user_id (self σ') = user_id (self σ).
Proof.
  intros σ'.
  destruct (service_evolves σ block service_name) as [Hs Hu Hid _ _ _].
  fold σ' in Hs, Hu, Hid.
  cut (
    (∀ k, k ≠ scope_ids block →
       block_field_datas (self σ') !! k = block_field_datas (self σ) !! k) ∧
    (∀ ck, ck ≠ context_key (ScopeIds.usage_id (scope_ids block)) →
       django_field_data_caches (self σ') !! ck =
       django_field_data_caches (self σ) !! ck) ∧
    emitted σ' = emitted σ);
    [intros (? & ? & ?); repeat split; assumption|].
  subst σ'.
  destruct (decide (service_name = "field-data")) as [->|Hne];
    [|by rewrite service_keeps_state by (by left)].
  destruct (service_declaration block "field-data") as [d|] eqn:Hd;
    [|by rewrite service_keeps_state by (by right)].
  unfold exec.
  destruct (block_field_datas (self σ) !! scope_ids block) as [v|] eqn:Hk.
  { by rewrite (service_field_data_cached σ block v) by congruence. }
  rewrite service_field_data_first by congruence.
  pose proof (init_block_field_datas σ block) as Hbfd.
  pose proof (init_emitted σ block) as Hem.
  pose proof (init_caches_frame σ block) as Hcf.
  unfold exec in Hbfd, Hem, Hcf.
  destruct (_init_field_data_for_block block σ) as [[e|fd] σ1]; cbn in *;
    (split; [intros k Hk'; rewrite lookup_insert_ne by done; by rewrite Hbfd|]);
    (split; [exact Hcf|exact Hem]).
Qed.

Lemma service_field_data_entry σ block :
  service_declaration block "field-data" ≠ None →
  ∃ v,
    block_field_datas (self (exec (service block "field-data") σ))
      !! scope_ids block = Some v ∧
    ((service block "field-data" σ).1 = inr (FieldDataRef <$> v) ∨
     ∃ e, (service block "field-data" σ).1 = inl e ∧ v = None ∧
          block_field_datas (self σ) !! scope_ids block = None).
Proof.
  intros Hd. unfold exec.
  destruct (block_field_datas (self σ) !! scope_ids block) as [v|] eqn:Hk.
  - rewrite (service_field_data_cached σ block v) by done. cbn.
    exists v. split; [done|]. by left.
  - rewrite service_field_data_first by done.
    destruct (_init_field_data_for_block block σ) as [[e|fd] σ1]; cbn.
    + exists None. split; [apply lookup_insert_eq|]. right. by exists e.
    + exists (Some fd). split; [apply lookup_insert_eq|]. by left.
Qed.

(** X3. After a declared ["field-data"] request the block's [scope_ids] is a
    key of [block_field_datas], and the only new one: the call returned what
    is stored there, or it raised on a first request and [None] is stored. *)
Theorem service_field_data_leaves_entry σ block :
  service_declaration block "field-data" ≠ None →
  let r := (service block "field-data" σ).1 in
  let σ' := exec (service block "field-data") σ in
  ∃ v,
    block_field_datas (self σ') !! scope_ids block = Some v ∧
    (r = inr (FieldDataRef <$> v) ∨
     ∃ e, r = inl e ∧ v = None ∧
          block_field_datas (self σ) !! scope_ids block = None) ∧
    dom (block_field_datas (self σ')) =
      {[scope_ids block]} ∪ dom (block_field_datas (self σ)).
Proof.
  intros Hd r σ'. subst r σ'. unfold exec.
  destruct (block_field_datas (self σ) !! scope_ids block) as [v|] eqn:Hk.
  - rewrite (service_field_data_cached σ block v) by done. cbn.
    exists v. split; [done|]. split; [by left|].
    apply elem_of_dom_2 in Hk. symmetry.
    apply subseteq_union_1_L. by apply singleton_subseteq_l.
  - rewrite service_field_data_first by done.
    pose proof (init_block_field_datas σ block) as Hbfd. unfold exec in Hbfd.
    destruct (_init_field_data_for_block block σ) as [[e|fd] σ1]; cbn in *.
    + exists None. split; [apply lookup_insert_eq|].
      split; [right; by exists e|]. by rewrite dom_insert_L, Hbfd.
    + exists (Some fd). split; [apply lookup_insert_eq|].
      split; [by left|]. by rewrite dom_insert_L, Hbfd.
Qed.

(** ** The field data a runtime serves *)

Lemma service_field_datas_wf σ block service_name :
  field_datas_wf σ → field_datas_wf (exec (service block service_name) σ).
Proof.
  intros Hwf.
  destruct (decide (service_name = "field-data")) as [->|Hne];
    [|by rewrite service_keeps_state by (by left)].
  destruct (service_declaration block "field-data") as [d|] eqn:Hd;
    [|by rewrite service_keeps_state by (by right)].
  unfold exec.
  destruct (block_field_datas (self σ) !! scope_ids block) as [v|] eqn:Hk.
  { by rewrite (service_field_data_cached σ block v) by congruence. }
  rewrite service_field_data_first by congruence.
  pose proof (init_block_field_datas σ block) as Hbfd.
  pose proof (init_evolves σ block) as Hev.
  pose proof (init_returns σ block) as Hret.
  unfold exec in Hbfd, Hev.
  destruct Hwf as [Hsplit Hinj].
  assert (Hold : ∀ k fd σ1,
    evolves σ σ1 →
    block_field_datas (self σ) !! k = Some (Some fd) →
    ∃ store, heap σ1 !! fd =
      Some (SplitFieldData (scope_mappings_for (system (self σ1)) store))).
  { intros k fd σ1 Hev1 Hfd. destruct (Hsplit k fd Hfd) as [store Hs].
    exists store. rewrite (evolves_system _ _ Hev1).
    apply (evolves_heap _ _ Hev1) in Hs. exact Hs. }
  destruct (_init_field_data_for_block block σ) as [[e|fd] σ1]; cbn in *.
  - split; cbn.
    + intros k fd Hfd.
      destruct (decide (k = scope_ids block)) as [->|Hnk];
        [by rewrite lookup_insert_eq in Hfd|].
      rewrite lookup_insert_ne, Hbfd in Hfd by done. by eapply Hold.
    + intros k1 k2 fd H1 H2.
      destruct (decide (k1 = scope_ids block)) as [->|Hn1];
        [by rewrite lookup_insert_eq in H1|].
      destruct (decide (k2 = scope_ids block)) as [->|Hn2];
        [by rewrite lookup_insert_eq in H2|].
      rewrite lookup_insert_ne, Hbfd in H1, H2 by done. by eapply Hinj.
  - destruct (Hret fd σ1 eq_refl) as (Hfresh & store & Hnew & _).
    assert (Hnot : ∀ k, block_field_datas (self σ) !! k ≠ Some (Some fd)).
    { intros k Hfd. destruct (Hsplit k fd Hfd) as [? Hs]. congruence. }
    split; cbn.
    + intros k fd' Hfd.
      destruct (decide (k = scope_ids block)) as [->|Hnk].
      * rewrite lookup_insert_eq in Hfd. injection Hfd as <-.
        exists store. by rewrite (evolves_system _ _ Hev).
      * rewrite lookup_insert_ne, Hbfd in Hfd by done. by eapply Hold.
    + intros k1 k2 fd' H1 H2.
      destruct (decide (k1 = scope_ids block)) as [->|Hn1];
        destruct (decide (k2 = scope_ids block)) as [->|Hn2]; [done|..].
      * rewrite lookup_insert_eq in H1. injection H1 as <-.
        rewrite lookup_insert_ne, Hbfd in H2 by done. by destruct (Hnot k2).
      * rewrite lookup_insert_eq in H2. injection H2 as <-.
        rewrite lookup_insert_ne, Hbfd in H1 by done. by destruct (Hnot k1).
      * rewrite lookup_insert_ne, Hbfd in H1, H2 by done. by eapply Hinj.
Qed.

Lemma service_calls_field_datas_wf calls σ :
  field_datas_wf σ → field_datas_wf (service_calls calls σ).
Proof.
  revert σ. induction calls as [|[block service_name] calls IH]; intros σ Hwf;
    cbn; [done|]. by apply IH, service_field_datas_wf.
Qed.

Lemma initial_state_field_datas_wf sys usr (h : list Obj) :
  field_datas_wf (initial_state (XBlockRuntime_init sys usr) h).
Proof. split; cbn; intros *; by rewrite lookup_empty. Qed.

Lemma service_calls_system calls σ :
  system (self (service_calls calls σ)) = system (self σ).
Proof. apply (evolves_system _ _ (service_calls_evolves calls σ)). Qed.

Lemma served_field_data_mappings sys usr (h : list Obj) calls block
    field_data σ' :
  service block "field-data"
    (service_calls calls (initial_state (XBlockRuntime_init sys usr) h)) =
    (inr (Some (FieldDataRef field_data)), σ') →
  ∃ store,
    heap σ' !! field_data =
      Some (SplitFieldData (scope_mappings_for sys store)).
Proof.
  intros Hcall.
  set (σ := service_calls calls (initial_state (XBlockRuntime_init sys usr) h))
    in *.
  assert (Hwf : field_datas_wf (exec (service block "field-data") σ)).
  { apply service_field_datas_wf, service_calls_field_datas_wf,
      initial_state_field_datas_wf. }
  assert (Hsys : system (self (exec (service block "field-data") σ)) = sys).
  { rewrite (evolves_system _ _ (service_evolves σ block "field-data")).
    subst σ. by rewrite service_calls_system. }
  assert (Hd : service_declaration block "field-data" ≠ None).
  { intros Hd. by rewrite service_not_requested in Hcall. }
  destruct (service_field_data_entry σ block Hd) as (v & Hv & Hr).
  unfold exec in *. rewrite Hcall in *. cbn in *.
  destruct Hr as [Hr|(e & Hr & _)]; [|done].
  destruct v as [fd|]; [|done]. injection Hr as ->.
  destruct (field_datas_split _ Hwf _ _ Hv) as [store Hs].
  rewrite Hsys in Hs. by exists store.
Qed.

(** X4. On a runtime made by [XBlockRuntime.__init__], after any [service]
    calls, whatever a ["field-data"] request returns, built by the call or
    taken from [block_field_datas], is a [SplitFieldData] that maps the
    authored scopes to the stores of the runtime's system and all user scopes
    to one store. *)
Theorem served_field_data_is_split sys usr (h : list Obj) calls block
    field_data σ' :
  service block "field-data"
    (service_calls calls (initial_state (XBlockRuntime_init sys usr) h)) =
    (inr (Some (FieldDataRef field_data)), σ') →
  ∃ scope_mappings,
    heap σ' !! field_data = Some (SplitFieldData scope_mappings) ∧
    _field_data scope_mappings Scope.content =
      Some (Some (authored_data_store sys)) ∧
    _field_data scope_mappings Scope.settings =
      Some (Some (authored_data_store sys)) ∧
    _field_data scope_mappings Scope.parent =
      Some (Some (authored_data_store sys)) ∧
    _field_data scope_mappings Scope.children =
      Some (Some (children_data_store sys)) ∧
    _field_data scope_mappings Scope.user_state_summary =
      _field_data scope_mappings Scope.user_state ∧
    _field_data scope_mappings Scope.user_info =
      _field_data scope_mappings Scope.user_state ∧
    _field_data scope_mappings Scope.preferences =
      _field_data scope_mappings Scope.user_state.
Proof.
  intros Hcall.
  destruct (served_field_data_mappings _ _ _ _ _ _ _ Hcall) as [store Hs].
  eexists. split; [exact Hs|].
  destruct (scope_mappings_for_lookup sys store)
    as (? & ? & ? & ? & -> & -> & -> & ->). done.
Qed.

(** X5. On a runtime made by [XBlockRuntime.__init__], after any [service]
    calls, no field data object is cached under two different [scope_ids]. *)
Theorem field_data_not_shared sys usr (h : list Obj) calls k1 k2 field_data :
  let σ := service_calls calls (initial_state (XBlockRuntime_init sys usr) h) in
  block_field_datas (self σ) !! k1 = Some (Some field_data) →
  block_field_datas (self σ) !! k2 = Some (Some field_data) →
  k1 = k2.
Proof.
  intros σ.
  apply (field_datas_inj σ).
  apply service_calls_field_datas_wf, initial_state_field_datas_wf.
Qed.

(** X6. A returning [_init_field_data_for_block] builds its own objects:
    the [SplitFieldData], the student [KvsFieldData] it routes the user scopes
    to, and the key-value store under it are all at addresses that were not in
    use before the call, so they are shared with no other block; existing
    objects other than a [FieldDataCache] are left as they were. *)
Theorem init_field_data_builds_own_stores σ block field_data σ' :
  _init_field_data_for_block block σ = (inr field_data, σ') →
  ∃ scope_mappings,
    heap σ' !! field_data = Some (SplitFieldData scope_mappings) ∧
    heap σ !! field_data = None ∧
    (∀ store kvs,
       _field_data scope_mappings Scope.user_state = Some (Some store) →
       heap σ' !! store = Some (KvsFieldData kvs) →
       heap σ !! store = None ∧ heap σ !! kvs = None ∧
       (heap σ' !! kvs = Some EphemeralKeyValueStore ∨
        ∃ c, heap σ' !! kvs = Some (DjangoKeyValueStore c))) ∧
    (∀ l o, heap σ !! l = Some o →
       (∀ cache, o ≠ FieldDataCacheObj cache) → heap σ' !! l = Some o).
Proof.
  intros Hret.
  assert (Hkeep : ∀ l o, heap σ !! l = Some o →
                    (∀ cache, o ≠ FieldDataCacheObj cache) →
                    heap σ' !! l = Some o).
  { intros l o Hl Ho.
    pose proof (evolves_heap _ _ (init_evolves σ block) l o Hl) as Hl'.
    unfold exec in Hl'. rewrite Hret in Hl'. cbn in Hl'.
    destruct o; try done. by destruct (Ho cache). }
  revert Hret Hkeep.
  init_cases σ block; intros Heq Hkeep; simplify_eq; cbn in *;
    eexists; (split; [first [by apply lookup_alloc_0 | by apply lookup_alloc_2
                            | by apply lookup_alloc_3
                            | apply lookup_alloc_2, length_insert]|]);
    (split; [apply lookup_ge_None; lia|]); (split; [|exact Hkeep]);
    intros store kvs Hstore Hkvs;
    destruct (scope_mappings_for_lookup (system (self σ)) None)
      as (_ & _ & _ & _ & _ & HN & _);
    try (rewrite HN in Hstore; discriminate Hstore).
  - destruct (scope_mappings_for_lookup (system (self σ))
                (Some (S (length (heap σ))))) as (_ & _ & _ & _ & _ & HS & _).
    rewrite HS in Hstore. injection Hstore as <-.
    rewrite (lookup_alloc_1 (heap σ)) in Hkvs by done. injection Hkvs as <-.
    split; [apply lookup_ge_None; lia|]. split; [apply lookup_ge_None; lia|].
    left. by apply lookup_alloc_0.
  - destruct (scope_mappings_for_lookup (system (self σ))
                (Some (S (length (heap σ))))) as (_ & _ & _ & _ & _ & HS & _).
    rewrite HS in Hstore. injection Hstore as <-.
    rewrite (lookup_alloc_1 (heap σ)) in Hkvs by done. injection Hkvs as <-.
    split; [apply lookup_ge_None; lia|]. split; [apply lookup_ge_None; lia|].
    left. by apply lookup_alloc_0.
  - destruct (scope_mappings_for_lookup (system (self σ))
                (Some (S (length (heap σ))))) as (_ & _ & _ & _ & _ & HS & _).
    rewrite HS in Hstore. injection Hstore as <-.
    rewrite (lookup_alloc_1 (<[c:=_]> (heap σ)) _ _ _ (length (heap σ)))
      in Hkvs by apply length_insert.
    injection Hkvs as <-.
    split; [apply lookup_ge_None; lia|]. split; [apply lookup_ge_None; lia|].
    right. eexists. apply lookup_alloc_0, length_insert.
  - destruct (scope_mappings_for_lookup (system (self σ))
                (Some (S (S (length (heap σ))))))
      as (_ & _ & _ & _ & _ & HS & _).
    rewrite HS in Hstore. injection Hstore as <-.
    rewrite (lookup_alloc_2 (heap σ)) in Hkvs by done. injection Hkvs as <-.
    split; [apply lookup_ge_None; lia|]. split; [apply lookup_ge_None; lia|].
    right. eexists. by apply lookup_alloc_1.
Qed.

(** ** Runtimes that keep student data in memory *)

Lemma init_in_memory_returns σ block :
  in_memory (self σ) = true →
  ∃ field_data t,
    _init_field_data_for_block block σ =
      (inr field_data, with_heap (heap σ ++ t) σ).
Proof.
  unfold in_memory. intros Hmem.
  destruct (user (self σ)) as [u|] eqn:Hu.
  - eexists _, _. apply (init_in_memory σ block u Hu).
    destruct (is_anonymous u); [by left|right].
    split; [done|]. by apply bool_decide_eq_true in Hmem.
  - eexists _, _. by apply init_no_user.
Qed.

Lemma service_no_database_use σ block service_name :
  no_database_use σ → no_database_use (exec (service block service_name) σ).
Proof.
  intros Hno.
  destruct (decide (service_name = "field-data")) as [->|Hne];
    [|by rewrite service_keeps_state by (by left)].
  destruct (service_declaration block "field-data") as [d|] eqn:Hd;
    [|by rewrite service_keeps_state by (by right)].
  unfold exec.
  destruct (block_field_datas (self σ) !! scope_ids block) as [v|] eqn:Hk.
  { by rewrite (service_field_data_cached σ block v) by congruence. }
  rewrite service_field_data_first by congruence.
  destruct Hno as [Hmem Hcaches Hfail].
  destruct (init_in_memory_returns σ block Hmem) as (fd & t & ->).
  split; cbn; [done..|].
  intros k Hk'. destruct (decide (k = scope_ids block)) as [->|Hnk].
  - by rewrite lookup_insert_eq in Hk'.
  - rewrite lookup_insert_ne in Hk' by done. by destruct (Hfail k).
Qed.

Lemma service_calls_no_database_use calls σ :
  no_database_use σ → no_database_use (service_calls calls σ).
Proof.
  revert σ. induction calls as [|[block service_name] calls IH]; intros σ Hno;
    cbn; [done|]. by apply IH, service_no_database_use.
Qed.

(** X7. A runtime made by [XBlockRuntime.__init__] without a user, for an
    anonymous user with the asserted id, or in [Ephemeral] mode never reaches
    the database branch: after any [service] calls, a declared
    ["field-data"] request returns a field data object (it does not raise and
    does not return [None]) and [django_field_data_caches] is still empty. *)
Theorem in_memory_runtime_always_serves sys usr (h : list Obj) calls block :
  in_memory (XBlockRuntime_init sys usr) = true →
  service_declaration block "field-data" ≠ None →
  let σ := service_calls calls (initial_state (XBlockRuntime_init sys usr) h) in
  (∃ field_data,
     (service block "field-data" σ).1 = inr (Some (FieldDataRef field_data))) ∧
  django_field_data_caches (self (exec (service block "field-data") σ)) = ∅.
Proof.
  intros Hmem Hd σ.
  assert (Hno : no_database_use σ).
  { apply service_calls_no_database_use. split; cbn; [done..|].
    intros k. by rewrite lookup_empty. }
  split; [|by apply service_no_database_use].
  destruct (block_field_datas (self σ) !! scope_ids block) as [[fd|]|] eqn:Hk.
  - rewrite (service_field_data_cached σ block (Some fd)) by done. by exists fd.
  - by destruct (no_database_failures _ Hno (scope_ids block)).
  - rewrite service_field_data_first by done.
    destruct (init_in_memory_returns σ block (no_database_in_memory _ Hno))
      as (fd & t & ->). by exists fd.
Qed.

(** ** Events: what the handlers need and what they emit *)

(** X8. For a registered user, a published ['grade'] event needs the keys
    ['value'] and ['max_value']: a missing one raises [KeyError] for that key
    (['value'] is looked up first) and nothing is emitted; with both, exactly
    one [SCORE_PUBLISHED] signal is sent, for the runtime's user, with [None]
    for each of the optional keys the event does not have. *)
Theorem publish_grade_registered σ block event u :
  user (self σ) = Some u → is_anonymous u = false →
  user_id (self σ) ≠ None →
  publish block "grade" event σ =
    match event !! "value", event !! "max_value" with
    | None, _ => (inl (KeyError "value"), σ)
    | Some _, None => (inl (KeyError "max_value"), σ)
    | Some raw_earned, Some raw_possible =>
        (inr tt,
         mkState (self σ) (heap σ)
           (emitted σ ++
              [SCORE_PUBLISHED_send block u raw_earned raw_possible
                 (default VNone (event !! "only_if_higher"))
                 (default VNone (event !! "score_deleted"))
                 (default VNone (event !! "grader_response"))]))
    end.
Proof.
  intros Hu Ha Hid. unfold publish, get_event_handler. unfold_M.
  destruct (user_id (self σ)); [|done]. rewrite decide_True by done.
  unfold handle_grade_event. unfold_M. rewrite Hu, Ha. cbn.
  destruct (event !! "value"); [|done]. by destruct (event !! "max_value").
Qed.

(** X9. With a [user_id] that is not [None], a published ['completion']
    event does nothing when completion tracking is switched off; when it is
    on, the event needs the key ['completion'] ([KeyError] otherwise, nothing
    submitted) and one completion is submitted for the runtime's user and the
    block's usage key. The user is not tested: an anonymous user's completion
    is submitted too, and the event never reaches the tracking log. *)
Theorem publish_completion σ block event :
  user_id (self σ) ≠ None →
  publish block "completion" event σ =
    if completion_tracking_enabled then
      match event !! "completion" with
      | None => (inl (KeyError "completion"), σ)
      | Some completion =>
          (inr tt,
           mkState (self σ) (heap σ)
             (emitted σ ++
                [submit_completion (user (self σ))
                   (ScopeIds.usage_id (scope_ids block)) completion]))
      end
    else (inr tt, σ).
Proof.
  intros Hid. unfold publish, get_event_handler. unfold_M.
  destruct (user_id (self σ)); [|done].
  rewrite decide_False by done. rewrite decide_True by done.
  unfold handle_completion_event. unfold_M.
  destruct completion_tracking_enabled; cbn; [|done].
  by destruct (event !! "completion").
Qed.

(** X10. The tracking-log entry of an event carries the event type and data
    as given, under a context that is the learning context's dict with
    ['asides'] set to the empty dict and, only when the runtime's [user_id]
    is truthy, ['user_id'] set to it: with a [user_id] of [None], [0] or the
    empty string the context's ['user_id'] is left as the learning context
    gave it. *)
Theorem tracking_log_context σ block event_type event_data :
  ∃ log_context,
    log_event_to_tracking_log block event_type event_data σ =
      (inr tt,
       mkState (self σ) (heap σ)
         (emitted σ ++ [server_track event_type log_context event_data])) ∧
    log_context !! "asides" = Some (VDict []) ∧
    log_context !! "user_id" =
      (if truthy_user_id (user_id (self σ))
       then Value_of_user_id <$> user_id (self σ)
       else context_dict_for_learning_context
              (context_key (ScopeIds.usage_id (scope_ids block))) !! "user_id") ∧
    ∀ key, key ≠ "asides" → key ≠ "user_id" →
      log_context !! key =
      context_dict_for_learning_context
        (context_key (ScopeIds.usage_id (scope_ids block))) !! key.
Proof.
  unfold log_event_to_tracking_log. unfold_M. eexists. split; [done|].
  split; [apply lookup_insert_eq|].
  destruct (user_id (self σ)) as [uid|] eqn:Hid.
  - destruct (truthy_user_id (Some uid)).
    + split; [by rewrite lookup_insert_ne, lookup_insert_eq|].
      intros key H1 H2. by rewrite !lookup_insert_ne.
    + split; [by rewrite lookup_insert_ne|].
      intros key H1 H2. by rewrite lookup_insert_ne.
  - split; [by rewrite lookup_insert_ne|].
    intros key H1 H2. by rewrite lookup_insert_ne.
Qed.


(** ** Rendering: who may render, and what becomes of the resources *)

Lemma prefix_append (p s t : string) :
  String.prefix p s = true → String.prefix p (s +:+ t) = true.
Proof.
  revert s. induction p as [|a p IH]; intros s Hp.
  - by destruct (s +:+ t).
  - destruct s as [|b s]; [done|].
    change (String b s +:+ t) with (String b (s +:+ t)).
    cbn [String.prefix] in *.
    destruct (Ascii.ascii_dec a b); [by apply IH|done].
Qed.

Lemma fix_resources_id (l : list FragmentResource) :
  existsb is_relative_url l = false → fix_resource <$> l = l.
Proof.
  induction l as [|r l IH]; [done|]. cbn [existsb]. intros Hex.
  apply orb_false_iff in Hex as [Hr Hl]. rewrite fmap_cons.
  by rewrite fix_resource_id, IH.
Qed.

(** X12. What [fix_resource] does to a resource: [kind], [mimetype] and
    [placement] are kept; a resource that is not a ['url'] starting with a
    slash is returned as it is (a ['text'] resource is never rewritten); a
    relative ['url'] gets the site root URL before its data, and the result is
    no longer relative exactly when the site root URL is not empty and does
    not itself start with a slash. *)
Theorem fix_resource_spec (resource : FragmentResource) :
  kind (fix_resource resource) = kind resource ∧
  mimetype (fix_resource resource) = mimetype resource ∧
  placement (fix_resource resource) = placement resource ∧
  (if is_relative_url resource
   then data (fix_resource resource) = get_site_root_url +:+ data resource ∧
        (is_relative_url (fix_resource resource) = false ↔
         is_absolute_root get_site_root_url = true)
   else fix_resource resource = resource).
Proof.
  unfold fix_resource.
  destruct (is_relative_url resource) eqn:Hrel; [|done]. cbn [kind mimetype
    placement data]. repeat split; try done.
  - intros Hfix. destruct (is_absolute_root get_site_root_url) eqn:Hroot;
      [done|]. exfalso. revert Hfix.
    unfold is_relative_url in *. cbn [kind data].
    apply andb_true_iff in Hrel as [-> Hslash]. cbn [andb].
    unfold is_absolute_root in Hroot.
    apply andb_false_iff in Hroot as [Hroot|Hroot];
      apply negb_false_iff in Hroot.
    + apply String.eqb_eq in Hroot as ->.
      change ("" +:+ data resource) with (data resource). by rewrite Hslash.
    + unfold startswith in *. by rewrite prefix_append.
  - intros Hroot. apply (fix_resource_absolute resource) in Hroot.
    unfold fix_resource in Hroot. by rewrite Hrel in Hroot.
Qed.

(** X13. With a site root URL that is not empty and does not start with a
    slash, fixing the resources of fragment data twice is the same as fixing
    them once, and fixing keeps the content, the number of resources and
    their order. *)
Theorem fix_frag_data_idempotent (frag_data : FragmentDict) :
  is_absolute_root get_site_root_url = true →
  fix_frag_data (fix_frag_data frag_data) = fix_frag_data frag_data ∧
  d_content (fix_frag_data frag_data) = d_content frag_data ∧
  length (d_resources (fix_frag_data frag_data)) =
    length (d_resources frag_data) ∧
  ∀ i, d_resources (fix_frag_data frag_data) !! i =
       fix_resource <$> d_resources frag_data !! i.
Proof.
  intros Hroot. unfold fix_frag_data. cbn.
  split; [|split; [done|split; [apply length_fmap|intros i; apply list_lookup_fmap]]].
  f_equal. rewrite <- list_fmap_compose. apply list_fmap_ext.
  intros i r _. cbn. apply fix_resource_id. by apply fix_resource_absolute.
Qed.

Section RenderingMore.
Variable Runtime_render :
  XBlock → string → option (gmap string Value) → M Fragment.

(** X14. For a registered user [render] lets every view through, not only
    ['public_view']: it raises exactly what the view raises and returns when
    the view returns, in the state the view left. *)
Theorem render_registered_user σ block view_name context u :
  user (self σ) = Some u → is_anonymous u = false →
  match Runtime_render block view_name context σ with
  | (inl e, σ') =>
      render Runtime_render block view_name context σ = (inl e, σ')
  | (inr view_fragment, σ') =>
      ∃ fragment,
        render Runtime_render block view_name context σ = (inr fragment, σ')
  end.
Proof.
  intros Hu Ha. rewrite render_allowed by (left; by rewrite Hu).
  destruct (Runtime_render block view_name context σ) as [[e|f] σ']; eauto.
Qed.

(** X15. When the user may render the view and the view returns, the
    fragment [render] returns is [wrap_fragment] of the view's fragment with
    [fix_resource] applied to each resource in place, and of [replace_urls]
    of the view's content; the test for relative URLs changes nothing in the
    result. [render] adds nothing to the state the view left. *)
Theorem render_result σ block view_name context view_fragment σ' :
  (∃ u, user (self σ) = Some u ∧ is_anonymous u = false) ∨
  view_name = "public_view" →
  Runtime_render block view_name context σ = (inr view_fragment, σ') →
  render Runtime_render block view_name context σ =
    (inr (wrap_fragment
            (mkFragment (content view_fragment)
               (fix_resource <$> resources view_fragment)
               (js_init_fn view_fragment) (js_init_version view_fragment)
               (json_init_args view_fragment))
            (replace_urls block (content view_fragment))),
     σ').
Proof.
  intros Hcase Hview. rewrite render_allowed.
  - rewrite Hview.
    destruct (existsb is_relative_url (resources view_fragment)) eqn:Hex;
      [done|].
    rewrite fix_resources_id by done. by destruct view_fragment.
  - destruct Hcase as [(u & Hu & Ha)| ->]; [left; by rewrite Hu|by right].
Qed.

End RenderingMore.

(** ** Handler URLs *)

Lemma prefix_refl_append (s t : string) : String.prefix s (s +:+ t) = true.
Proof.
  induction s as [|a s IH]; [by destruct t|].
  change (String a s +:+ t) with (String a (s +:+ t)). cbn [String.prefix].
  by destruct (Ascii.ascii_dec a a).
Qed.

Lemma prefix_refl (s : string) : String.prefix s s = true.
Proof.
  induction s as [|a s IH]; [done|]. cbn [String.prefix].
  by destruct (Ascii.ascii_dec a a).
Qed.

Lemma append_assoc (s t v : string) : (s +:+ t) +:+ v = s +:+ (t +:+ v).
Proof.
  induction s as [|a s IH]; [done|].
  change (String a s +:+ t) with (String a (s +:+ t)).
  change (String a (s +:+ t) +:+ v) with (String a ((s +:+ t) +:+ v)).
  by rewrite IH.
Qed.

Lemma endswith_refl (s : string) : endswith s s = true.
Proof. destruct s; cbn [endswith]; by rewrite String.eqb_refl. Qed.

Lemma endswith_append (s t : string) : endswith (s +:+ t) t = true.
Proof.
  induction s as [|a s IH]; [apply endswith_refl|].
  change (String a s +:+ t) with (String a (s +:+ t)). cbn [endswith].
  rewrite IH. apply orb_true_r.
Qed.

Lemma str_in_append_l (sub s t : string) :
  str_in sub s = true → str_in sub (s +:+ t) = true.
Proof.
  induction s as [|a s IH]; cbn [str_in]; intros Hin.
  - rewrite orb_false_r in Hin.
    destruct sub; [by destruct t|done].
  - change (String a s +:+ t) with (String a (s +:+ t)). cbn [str_in].
    apply orb_true_iff in Hin as [Hp|Hin].
    + apply (prefix_append _ _ t) in Hp.
      change (String a s +:+ t) with (String a (s +:+ t)) in Hp.
      by rewrite Hp.
    + rewrite IH by done. apply orb_true_r.
Qed.

Lemma str_in_append_r (sub s t : string) :
  str_in sub t = true → str_in sub (s +:+ t) = true.
Proof.
  intros Hin. induction s as [|a s IH]; [done|].
  change (String a s +:+ t) with (String a (s +:+ t)). cbn [str_in].
  rewrite IH. apply orb_true_r.
Qed.

Lemma str_in_here (sub t : string) : str_in sub (sub +:+ t) = true.
Proof.
  destruct (sub +:+ t) eqn:Heq; cbn [str_in]; rewrite <- Heq;
    by rewrite prefix_refl_append.
Qed.

Section HandlerUrl.
Variable system_handler_url : UsageKey → string → option UserType → string.
Variables (rt : XBlockRuntime) (block : XBlock) (handler_name : string).

Let base : string :=
  system_handler_url (ScopeIds.usage_id (scope_ids block)) handler_name
    (user rt).

(** X16. [handler_url] only appends to the URL the system gives for the
    block's usage key, the handler and the runtime's user: that URL is a
    prefix of the result, and it is the result when [suffix] and [query] are
    empty; [thirdparty] changes nothing. *)
Theorem handler_url_extends_system_url (suffix query : string)
    (thirdparty : bool) :
  startswith
    (handler_url system_handler_url rt block handler_name suffix query
       thirdparty) base = true ∧
  handler_url system_handler_url rt block handler_name "" "" thirdparty =
    base ∧
  handler_url system_handler_url rt block handler_name suffix query thirdparty =
    handler_url system_handler_url rt block handler_name suffix query false.
Proof.
  split; [|done]. unfold handler_url, startswith. fold base.
  destruct (String.eqb suffix ""), (String.eqb query ""),
    (endswith base "/"); cbn [negb];
    rewrite ?append_assoc;
    first [apply prefix_refl_append | apply prefix_refl].
Qed.

(** X17. With a suffix, [handler_url] joins it to the system's URL with
    exactly one slash between them unless the URL already ends with one: the
    result is the URL, a slash if it did not end with one, and the suffix. *)
Theorem handler_url_suffix (suffix : string) (thirdparty : bool) :
  suffix ≠ "" →
  ∃ u,
    handler_url system_handler_url rt block handler_name suffix "" thirdparty =
      u +:+ suffix ∧
    endswith u "/" = true ∧
    u = (if endswith base "/" then base else base +:+ "/").
Proof.
  intros Hs. apply String.eqb_neq in Hs.
  unfold handler_url. fold base. rewrite Hs. cbn [negb String.eqb].
  destruct (endswith base "/") eqn:Hend; cbn [negb].
  - by exists base.
  - exists (base +:+ "/"). split; [done|]. split; [|done].
    apply endswith_append.
Qed.

(** X18. With a query, [handler_url] appends it to the URL built so far
    (the system's URL with the suffix) after ['&'] if that URL has a ['?']
    somewhere, after ['?'] otherwise: the result always has a ['?'] and ends
    with the query. *)
Theorem handler_url_query (suffix query : string) (thirdparty : bool) :
  query ≠ "" →
  let url :=
    handler_url system_handler_url rt block handler_name suffix "" thirdparty in
  let result :=
    handler_url system_handler_url rt block handler_name suffix query
      thirdparty in
  result = (url +:+ (if str_in "?" url then "&" else "?")) +:+ query ∧
  str_in "?" result = true ∧
  endswith result query = true.
Proof.
  intros Hq url result. apply String.eqb_neq in Hq.
  assert (Hres : result =
            (url +:+ (if str_in "?" url then "&" else "?")) +:+ query).
  { subst result url. unfold handler_url. fold base. rewrite Hq.
    cbn [negb String.eqb]. done. }
  split; [done|]. rewrite Hres. split; [|apply endswith_append].
  destruct (str_in "?" url) eqn:Hin.
  - by do 2 apply str_in_append_l.
  - apply str_in_append_l, str_in_append_r. apply (str_in_here "?" "").
Qed.

End HandlerUrl.

(** ** The system's stores *)

(** X19. [XBlockRuntimeSystem.__init__] creates a [BlockstoreFieldData] and
    a [BlockstoreChildrenData] over it, both new. On a runtime of that system,
    after any [service] calls, the field data a ["field-data"] request
    returns sends [content] to that [BlockstoreFieldData] and [children] to
    that [BlockstoreChildrenData], which still wraps the same authored store:
    every block of every runtime of the system reads authored data from the
    one pair of stores. *)
Theorem runtime_serves_system_stores mode usr (h : list Obj) calls block
    field_data σ' :
  let sys := (XBlockRuntimeSystem_init mode h).1 in
  let h' := (XBlockRuntimeSystem_init mode h).2 in
  service block "field-data"
    (service_calls calls (initial_state (XBlockRuntime_init sys usr) h')) =
    (inr (Some (FieldDataRef field_data)), σ') →
  ∃ scope_mappings authored children_,
    heap σ' !! field_data = Some (SplitFieldData scope_mappings) ∧
    _field_data scope_mappings Scope.content = Some (Some authored) ∧
    _field_data scope_mappings Scope.children = Some (Some children_) ∧
    heap σ' !! authored = Some BlockstoreFieldData ∧
    heap σ' !! children_ = Some (BlockstoreChildrenData authored) ∧
    h !! authored = None ∧ h !! children_ = None ∧
    student_data_mode (system (self σ')) = mode.
Proof.
  intros sys h' Hcall.
  destruct (served_field_data_mappings _ _ _ _ _ _ _ Hcall) as [store Hs].
  set (σ0 := initial_state (XBlockRuntime_init sys usr) h') in *.
  assert (Hev : evolves σ0 σ').
  { eapply evolves_trans; [apply (service_calls_evolves calls)|].
    pose proof (service_evolves (service_calls calls σ0) block "field-data")
      as Hev. unfold exec in Hev. by rewrite Hcall in Hev. }
  exists (scope_mappings_for sys store), (length h), (S (length h)).
  split; [done|].
  destruct (scope_mappings_for_lookup sys store) as (-> & _ & _ & -> & _).
  split; [done|]. split; [done|].
  split.
  { apply (evolves_heap _ _ Hev (length h) BlockstoreFieldData).
    by apply lookup_alloc_0. }
  split.
  { apply (evolves_heap _ _ Hev (S (length h))
             (BlockstoreChildrenData (length h))).
    by apply lookup_alloc_1. }
  split; [apply lookup_ge_None; lia|]. split; [apply lookup_ge_None; lia|].
  by rewrite (evolves_system _ _ Hev).
Qed.

(** ** The database-backed branch: sharing and failure *)

Lemma init_cache_behind σ block u field_data σ' :
  user (self σ) = Some u → is_anonymous u = false →
  student_data_mode (system (self σ)) = Persisted →
  _init_field_data_for_block block σ = (inr field_data, σ') →
  ∃ c,
    cache_behind (heap σ') field_data = Some c ∧
    django_field_data_caches (self σ') !!
      context_key (ScopeIds.usage_id (scope_ids block)) = Some c.
Proof.
  intros Hu Ha Hm Hret.
  apply init_returns in Hret as (_ & store & Hfd & Hst).
  unfold is_student_data_store in Hst. rewrite Hu in Hst.
  destruct store as [s|]; [|done]. destruct Hst as (kvs & Hs & Hkvs).
  rewrite Ha, Hm in Hkvs. cbn in Hkvs.
  destruct Hkvs as (c & cache & Hk & _ & Hc). exists c. split; [|done].
  unfold cache_behind. rewrite Hfd.
  destruct (scope_mappings_for_lookup (system (self σ)) (Some s))
    as (_ & _ & _ & _ & _ & -> & _). by rewrite Hs, Hk.
Qed.

Lemma cache_behind_extends (h h' : list Obj) field_data c :
  heap_extends h h' →
  cache_behind h field_data = Some c → cache_behind h' field_data = Some c.
Proof.
  intros Hext. unfold cache_behind.
  destruct (h !! field_data) as [[| | | | | |m]|] eqn:Hfd; try done.
  rewrite (Hext _ _ Hfd).
  destruct (_field_data m Scope.user_state) as [[s|]|]; try done.
  destruct (h !! s) as [[| | | |kvs| |]|] eqn:Hs; try done.
  rewrite (Hext _ _ Hs).
  destruct (h !! kvs) as [[| | |c'| | |]|] eqn:Hk; try done.
  by rewrite (Hext _ _ Hk).
Qed.

(** X20. In [Persisted] mode with a registered user, two blocks of one
    learning context whose field data is built by [service], the second after
    any further [service] calls, get different field data objects whose
    student stores read the same [FieldDataCache] object, the one registered
    for the context: the cache is shared, the stores are not. *)
Theorem blocks_of_a_context_share_cache σ block1 block2 u fd1 σ1 calls fd2 σ2 :
  user (self σ) = Some u → is_anonymous u = false →
  student_data_mode (system (self σ)) = Persisted →
  block_field_datas (self σ) !! scope_ids block1 = None →
  service block1 "field-data" σ = (inr (Some (FieldDataRef fd1)), σ1) →
  context_key (ScopeIds.usage_id (scope_ids block2)) =
    context_key (ScopeIds.usage_id (scope_ids block1)) →
  block_field_datas (self (service_calls calls σ1)) !! scope_ids block2 = None →
  service block2 "field-data" (service_calls calls σ1) =
    (inr (Some (FieldDataRef fd2)), σ2) →
  fd1 ≠ fd2 ∧
  ∃ c,
    cache_behind (heap σ2) fd1 = Some c ∧
    cache_behind (heap σ2) fd2 = Some c ∧
    django_field_data_caches (self σ2) !!
      context_key (ScopeIds.usage_id (scope_ids block1)) = Some c.
Proof.
  intros Hu Ha Hm Hk1 Hcall1 Hck Hk2 Hcall2.
  assert (Hd1 : service_declaration block1 "field-data" ≠ None).
  { intros Hd. by rewrite service_not_requested in Hcall1. }
  assert (Hd2 : service_declaration block2 "field-data" ≠ None).
  { intros Hd. by rewrite service_not_requested in Hcall2. }
  rewrite service_field_data_first in Hcall1 by done.
  destruct (_init_field_data_for_block block1 σ) as [[e|fd] σ0] eqn:Hinit1;
    [done|]. injection Hcall1 as -> <-.
  destruct (init_cache_behind σ block1 u fd1 σ0 Hu Ha Hm Hinit1)
    as (c & Hb1 & Hc1).
  set (σ1 := with_self (set_block_field_data (scope_ids block1) (Some fd1)
                          (self σ0)) σ0) in *.
  set (σ1' := service_calls calls σ1) in *.
  pose proof (init_evolves σ block1) as Hev0. unfold exec in Hev0.
  rewrite Hinit1 in Hev0. cbn in Hev0.
  pose proof (service_calls_evolves calls σ1) as Hev1. fold σ1' in Hev1.
  assert (Hu' : user (self σ1') = Some u).
  { rewrite (evolves_user _ _ Hev1). cbn.
    by rewrite (evolves_user _ _ Hev0). }
  assert (Hm' : student_data_mode (system (self σ1')) = Persisted).
  { rewrite (evolves_system _ _ Hev1). cbn.
    by rewrite (evolves_system _ _ Hev0). }
  rewrite service_field_data_first in Hcall2 by done.
  destruct (_init_field_data_for_block block2 σ1') as [[e|fd] σ0'] eqn:Hinit2;
    [done|]. injection Hcall2 as -> <-.
  destruct (init_cache_behind σ1' block2 u fd2 σ0' Hu' Ha Hm' Hinit2)
    as (c2 & Hb2 & Hc2).
  pose proof (init_evolves σ1' block2) as Hev2. unfold exec in Hev2.
  rewrite Hinit2 in Hev2. cbn in Hev2.
  assert (Hc : django_field_data_caches (self σ0') !!
                 context_key (ScopeIds.usage_id (scope_ids block1)) = Some c).
  { apply (evolves_django_field_data_caches _ _ Hev2),
      (evolves_django_field_data_caches _ _ Hev1). exact Hc1. }
  rewrite Hck in Hc2. rewrite Hc in Hc2. injection Hc2 as <-.
  assert (Hb1' : cache_behind (heap σ0') fd1 = Some c).
  { eapply cache_behind_extends; [apply (evolves_heap _ _ Hev2)|].
    eapply cache_behind_extends; [apply (evolves_heap _ _ Hev1)|]. exact Hb1. }
  split.
  - intros <-. apply init_returns in Hinit2 as (Hfresh & _).
    apply init_returns in Hinit1 as (_ & store & Hfd & _).
    apply (evolves_heap _ _ Hev1) in Hfd. cbn in Hfd. congruence.
  - exists c. by cbn.
Qed.

(** X21. In [Persisted] mode with a registered user and no cache registered
    for the learning context, a [FieldDataCache] constructor that raises makes
    the ["field-data"] request raise and leaves the heap and
    [django_field_data_caches] as they were: the failure is recorded for that
    block only, and the next block of the context calls the constructor
    again, with itself as the only block. *)
Theorem constructor_failure_is_retried σ block1 block2 u e :
  user (self σ) = Some u → is_anonymous u = false →
  student_data_mode (system (self σ)) = Persisted →
  service_declaration block1 "field-data" ≠ None →
  block_field_datas (self σ) !! scope_ids block1 = None →
  django_field_data_caches (self σ) !!
    context_key (ScopeIds.usage_id (scope_ids block1)) = None →
  FieldDataCache_init [block1]
    (context_key (ScopeIds.usage_id (scope_ids block1))) u None false = inl e →
  context_key (ScopeIds.usage_id (scope_ids block2)) =
    context_key (ScopeIds.usage_id (scope_ids block1)) →
  let ck := context_key (ScopeIds.usage_id (scope_ids block1)) in
  let n := length (heap σ) in
  let σ1 := exec (service block1 "field-data") σ in
  service block1 "field-data" σ = (inl e, σ1) ∧
  heap σ1 = heap σ ∧
  django_field_data_caches (self σ1) = django_field_data_caches (self σ) ∧
  _init_field_data_for_block block2 σ1 =
    match FieldDataCache_init [block2] ck u None false with
    | inl e2 => (inl e2, σ1)
    | inr cache =>
        (inr (S (S (S n))),
         mkState (set_django_field_data_cache ck n (self σ1))
           (heap σ ++
              [FieldDataCacheObj cache; DjangoKeyValueStore n;
               KvsFieldData (S n);
               SplitFieldData (scope_mappings_for (system (self σ))
                                 (Some (S (S n))))])
           (emitted σ))
    end.
Proof.
  intros Hu Ha Hm Hd Hk Hc Hinit Hck ck n σ1. subst σ1. unfold exec.
  rewrite service_field_data_first by done.
  rewrite (init_persisted_new_raises σ block1 u Hu Ha Hm e Hc Hinit). cbn.
  split; [done|]. split; [done|]. split; [done|].
  set (σ1 := with_self (set_block_field_data (scope_ids block1) None (self σ))
               σ).
  destruct (FieldDataCache_init [block2] ck u None false) as [e2|cache]
    eqn:Hinit2.
  - apply (init_persisted_new_raises σ1 block2 u); try done;
      by rewrite Hck.
  - rewrite (init_persisted_new σ1 block2 u Hu Ha Hm cache);
      [by rewrite Hck|by rewrite Hck..].
Qed.

(** ** Runtimes as [XBlockRuntime.__init__] makes them *)

(** X22. When [get_xblock_id_for_anonymous_user] gives ids that are strings
    starting with ["anon"], every state a runtime made by
    [XBlockRuntime.__init__] reaches through [service] calls satisfies what
    [_init_field_data_for_block] asserts of an anonymous user's [user_id], has
    only [FieldDataCache] objects registered in [django_field_data_caches], and
    has only [SplitFieldData] objects of its system in [block_field_datas]. *)
Theorem constructed_runtime_invariants sys usr (h : list Obj) calls :
  (∀ u, is_anon_user_id (Some (get_xblock_id_for_anonymous_user u)) = true) →
  let σ := service_calls calls (initial_state (XBlockRuntime_init sys usr) h) in
  anonymous_user_id_ok (self σ) = true ∧
  caches_wf σ ∧
  field_datas_wf σ ∧
  system (self σ) = sys ∧ user (self σ) = usr.
Proof.
  intros Hanon σ.
  pose proof (service_calls_evolves calls
                (initial_state (XBlockRuntime_init sys usr) h)) as Hev.
  fold σ in Hev. split; [|split; [|split; [|split]]].
  - apply (evolves_user_id_ok _ _ Hev). cbn.
    by apply XBlockRuntime_init_user_id_ok.
  - apply service_calls_caches_wf, initial_state_caches_wf.
  - apply service_calls_field_datas_wf, initial_state_field_datas_wf.
  - by rewrite (evolves_system _ _ Hev).
  - by rewrite (evolves_user _ _ Hev).
Qed.
End Properties.

(** * The theorems at work on the small platform *)

#[local] Existing Instance demo_platform.

Lemma init_field_data_selects_student_store_witness :
  anonymous_user_id_ok (self (demo_state Persisted (Some guest))) = true ∧
  _init_field_data_for_block demo_block (demo_state Persisted (Some guest)) =
    (inr 4%nat,
     with_heap
       ([BlockstoreFieldData; BlockstoreChildrenData 0] ++
        [EphemeralKeyValueStore; KvsFieldData 2;
         SplitFieldData
           (scope_mappings_for (system (self (demo_state Persisted (Some guest))))
              (Some 3%nat))])
       (demo_state Persisted (Some guest))).
Proof.
  split; [reflexivity|].
  exact (proj1 (proj2 (init_field_data_selects_student_store
                         (demo_state Persisted (Some guest)) demo_block eq_refl))
           guest eq_refl (or_introl eq_refl)).
Defined.

Lemma init_field_data_routes_scopes_witness :
  _init_field_data_for_block demo_block (demo_state Ephemeral (Some alice)) =
    (inr 4%nat,
     exec (_init_field_data_for_block demo_block)
       (demo_state Ephemeral (Some alice))) ∧
  heap (demo_state Ephemeral (Some alice)) !! 4%nat = None.
Proof.
  assert (Hret :
    _init_field_data_for_block demo_block (demo_state Ephemeral (Some alice)) =
      (inr 4%nat,
       exec (_init_field_data_for_block demo_block)
         (demo_state Ephemeral (Some alice)))) by reflexivity.
  split; [exact Hret|].
  exact (proj1 (init_field_data_routes_scopes _ _ _ _ Hret)).
Defined.

Lemma service_field_data_built_once_witness :
  block_field_datas (self (demo_state Persisted (Some alice)))
    !! scope_ids demo_block = None ∧
  service demo_block "field-data" (demo_state Persisted (Some alice)) =
    (inr (Some (FieldDataRef 5)),
     exec (service demo_block "field-data")
       (demo_state Persisted (Some alice))) ∧
  let σ2 :=
    service_calls [(demo_block2, "field-data"); (demo_block, "i18n")]
      (exec (service demo_block "field-data")
         (demo_state Persisted (Some alice))) in
  service demo_block "field-data" σ2 = (inr (Some (FieldDataRef 5)), σ2).
Proof.
  assert (Hnew : block_field_datas (self (demo_state Persisted (Some alice)))
                   !! scope_ids demo_block = None) by reflexivity.
  assert (Hcall :
    service demo_block "field-data" (demo_state Persisted (Some alice)) =
      (inr (Some (FieldDataRef 5)),
       exec (service demo_block "field-data")
         (demo_state Persisted (Some alice)))) by (vm_compute; reflexivity).
  split; [exact Hnew|]. split; [exact Hcall|].
  refine (proj1 (proj2 (proj2 (service_field_data_built_once _ _ _ _ Hnew Hcall))
                   [(demo_block2, "field-data"); (demo_block, "i18n")]
                   demo_block eq_refl _)).
  vm_compute. discriminate.
Defined.

Lemma service_field_data_failure_cached_witness :
  service_declaration demo_block_down "field-data" ≠ None ∧
  block_field_datas (self (demo_state Persisted (Some alice)))
    !! scope_ids demo_block_down = None ∧
  _init_field_data_for_block demo_block_down
    (demo_state Persisted (Some alice)) =
    (inl (Raised "DatabaseError"), demo_state Persisted (Some alice)) ∧
  service demo_block_down "field-data" (demo_state Persisted (Some alice)) =
    (inl (Raised "DatabaseError"),
     with_self
       (set_block_field_data (scope_ids demo_block_down) None
          (self (demo_state Persisted (Some alice))))
       (demo_state Persisted (Some alice))).
Proof.
  assert (Hd : service_declaration demo_block_down "field-data" ≠ None)
    by (vm_compute; discriminate).
  assert (Hnew : block_field_datas (self (demo_state Persisted (Some alice)))
                   !! scope_ids demo_block_down = None) by reflexivity.
  assert (Hinit :
    _init_field_data_for_block demo_block_down
      (demo_state Persisted (Some alice)) =
      (inl (Raised "DatabaseError"), demo_state Persisted (Some alice)))
    by reflexivity.
  split; [exact Hd|]. split; [exact Hnew|]. split; [exact Hinit|].
  exact (proj1 (service_field_data_failure_cached _ _ _ _ Hd Hnew Hinit)).
Defined.

Lemma one_field_data_cache_per_context_witness :
  caches_wf (exec (service demo_block "field-data")
               (demo_state Persisted (Some alice))) ∧
  django_field_data_caches
    (self (exec (service demo_block "field-data")
             (demo_state Persisted (Some alice)))) !! "lib:Org:Lib" = Some 2%nat ∧
  django_field_data_caches
    (self (service_calls [(demo_block2, "field-data")]
             (exec (service demo_block "field-data")
                (demo_state Persisted (Some alice))))) !! "lib:Org:Lib" =
    Some 2%nat.
Proof.
  assert (Hwf : caches_wf (exec (service demo_block "field-data")
                             (demo_state Persisted (Some alice)))).
  { apply service_caches_wf. intros k c Hk. discriminate Hk. }
  assert (Hc : django_field_data_caches
    (self (exec (service demo_block "field-data")
             (demo_state Persisted (Some alice)))) !! "lib:Org:Lib" = Some 2%nat)
    by (vm_compute; reflexivity).
  assert (Hu : user (self (exec (service demo_block "field-data")
                                (demo_state Persisted (Some alice)))) =
               Some alice) by (vm_compute; reflexivity).
  assert (Hm : student_data_mode
                 (system (self (exec (service demo_block "field-data")
                                  (demo_state Persisted (Some alice))))) =
               Persisted) by (vm_compute; reflexivity).
  split; [exact Hwf|]. split; [exact Hc|].
  exact (proj1 (proj2 (proj2 (one_field_data_cache_per_context
                                _ demo_block2 alice Hu eq_refl Hm Hwf))
                  2%nat [(demo_block2, "field-data")] Hc)).
Defined.

Lemma publish_dispatch_witness :
  user_id (self (demo_state Persisted (Some alice))) ≠ None ∧
  publish demo_block "grade" demo_event (demo_state Persisted (Some alice)) =
    handle_grade_event demo_block demo_event
      (demo_state Persisted (Some alice)) ∧
  emitted (exec (publish demo_block "grade" demo_event)
             (demo_state Persisted (Some alice))) =
    [SCORE_PUBLISHED_send demo_block alice (VInt 3) (VInt 4) VNone VNone VNone].
Proof.
  assert (Hid : user_id (self (demo_state Persisted (Some alice))) ≠ None)
    by (vm_compute; discriminate).
  split; [exact Hid|]. split; [|reflexivity].
  exact (proj1 (publish_dispatch (demo_state Persisted (Some alice))
                  demo_block "grade" demo_event) Hid eq_refl).
Defined.

Lemma anonymous_grade_event_dropped_witness :
  user (self (demo_state Persisted (Some guest))) = Some guest ∧
  is_anonymous guest = true ∧
  user_id (self (demo_state Persisted (Some guest))) = Some (UidStr "anon5f2c") ∧
  publish demo_block "grade" demo_event (demo_state Persisted (Some guest)) =
    (inr tt, demo_state Persisted (Some guest)).
Proof.
  split; [reflexivity|]. split; [reflexivity|]. split; [reflexivity|].
  exact (proj1 (proj2 (anonymous_grade_event_dropped
                         (demo_state Persisted (Some guest)) demo_block
                         demo_event guest (UidStr "anon5f2c")
                         eq_refl eq_refl eq_refl))).
Defined.

Lemma render_makes_urls_absolute_witness :
  is_absolute_root get_site_root_url = true ∧
  render demo_render demo_block "student_view" None
    (demo_state Persisted (Some alice)) =
    (inr (mkFragment "<p>Hello</p>"
            [mkResource "url" "https://lms.example.org/static/bundle.js"
               "application/javascript" "foot";
             mkResource "url" "https://cdn.example.org/a.css" "text/css" "head";
             mkResource "text" "/* css */" "text/css" "head"]
            None None VNone),
     demo_state Persisted (Some alice)) ∧
  ∀ r, r ∈ [mkResource "url" "https://lms.example.org/static/bundle.js"
              "application/javascript" "foot";
            mkResource "url" "https://cdn.example.org/a.css" "text/css" "head";
            mkResource "text" "/* css */" "text/css" "head"] →
       is_relative_url r = false.
Proof.
  assert (Hroot : is_absolute_root get_site_root_url = true) by reflexivity.
  assert (Hrender :
    render demo_render demo_block "student_view" None
      (demo_state Persisted (Some alice)) =
      (inr (mkFragment "<p>Hello</p>"
              [mkResource "url" "https://lms.example.org/static/bundle.js"
                 "application/javascript" "foot";
               mkResource "url" "https://cdn.example.org/a.css" "text/css" "head";
               mkResource "text" "/* css */" "text/css" "head"]
              None None VNone),
       demo_state Persisted (Some alice))) by reflexivity.
  split; [exact Hroot|]. split; [exact Hrender|].
  exact (proj1 (render_makes_urls_absolute demo_render _ _ _ _ _ _ Hroot
                  (λ _ _, eq_refl) (λ _ _ r, conj (λ x, x) (λ x, x)) Hrender)).
Defined.

Lemma render_permission_check_witness :
  user (self (demo_state Persisted (Some guest))) = Some guest ∧
  is_anonymous guest = true ∧
  "student_view" ≠ "public_view" ∧
  render demo_render demo_block "student_view" None
    (demo_state Persisted (Some guest)) =
    (inl PermissionDenied, demo_state Persisted (Some guest)).
Proof.
  assert (Hv : "student_view" ≠ "public_view") by discriminate.
  split; [reflexivity|]. split; [reflexivity|]. split; [exact Hv|].
  exact (proj1 (render_permission_check demo_render
                  (demo_state Persisted (Some guest)) demo_block
                  "student_view" None)
           (or_intror (ex_intro _ guest (conj eq_refl eq_refl))) Hv).
Defined.

(** * The further properties at work on the small platform *)

Lemma service_other_services_keep_state_witness :
  "i18n" ≠ "field-data" ∧
  exec (service demo_block "i18n") demo_alice_served = demo_alice_served.
Proof.
  assert (Hne : "i18n" ≠ "field-data") by discriminate.
  split; [exact Hne|].
  exact (proj1 (service_other_services_keep_state demo_alice_served demo_block
                  "i18n" (or_introl Hne))).
Defined.

Lemma service_field_data_leaves_entry_witness :
  service_declaration demo_block_down "field-data" ≠ None ∧
  ∃ v, block_field_datas
         (self (exec (service demo_block_down "field-data") demo_alice))
         !! scope_ids demo_block_down = Some v.
Proof.
  assert (Hd : service_declaration demo_block_down "field-data" ≠ None)
    by (vm_compute; discriminate).
  split; [exact Hd|].
  destruct (service_field_data_leaves_entry demo_alice demo_block_down Hd)
    as (v & Hv & _).
  exists v. exact Hv.
Defined.

Lemma served_field_data_is_split_witness :
  service demo_block "field-data" demo_alice =
    (inr (Some (FieldDataRef 5)), demo_alice_served) ∧
  ∃ scope_mappings,
    heap demo_alice_served !! 5%nat = Some (SplitFieldData scope_mappings) ∧
    _field_data scope_mappings Scope.content = Some (Some 0%nat).
Proof.
  assert (Hcall : service demo_block "field-data" demo_alice =
                    (inr (Some (FieldDataRef 5)), demo_alice_served))
    by (vm_compute; reflexivity).
  split; [exact Hcall|].
  destruct (served_field_data_is_split
              (fst (XBlockRuntimeSystem_init Persisted [])) (Some alice)
              (snd (XBlockRuntimeSystem_init Persisted [])) [] demo_block
              5%nat demo_alice_served Hcall) as (m & Hm & Hc & _).
  exists m. split; [exact Hm|exact Hc].
Defined.

Lemma field_data_not_shared_witness :
  block_field_datas (self demo_alice_served) !! scope_ids demo_block =
    Some (Some 5%nat) ∧
  scope_ids demo_block = scope_ids demo_block.
Proof.
  assert (Hk : block_field_datas (self demo_alice_served)
                 !! scope_ids demo_block = Some (Some 5%nat))
    by (vm_compute; reflexivity).
  split; [exact Hk|].
  exact (field_data_not_shared
           (fst (XBlockRuntimeSystem_init Persisted [])) (Some alice)
           (snd (XBlockRuntimeSystem_init Persisted []))
           [(demo_block, "field-data")] (scope_ids demo_block)
           (scope_ids demo_block) 5%nat Hk Hk).
Defined.

Lemma init_field_data_builds_own_stores_witness :
  _init_field_data_for_block demo_block2 demo_alice_served =
    (inr 8%nat, exec (_init_field_data_for_block demo_block2) demo_alice_served) ∧
  heap demo_alice_served !! 8%nat = None.
Proof.
  assert (Hret :
    _init_field_data_for_block demo_block2 demo_alice_served =
      (inr 8%nat,
       exec (_init_field_data_for_block demo_block2) demo_alice_served))
    by (vm_compute; reflexivity).
  split; [exact Hret|].
  destruct (init_field_data_builds_own_stores _ _ _ _ Hret)
    as (m & _ & Hfresh & _).
  exact Hfresh.
Defined.

Lemma in_memory_runtime_always_serves_witness :
  in_memory (XBlockRuntime_init (fst (XBlockRuntimeSystem_init Persisted []))
               (Some guest)) = true ∧
  service_declaration demo_block "field-data" ≠ None ∧
  django_field_data_caches
    (self (exec (service demo_block "field-data")
             (service_calls [(demo_block2, "field-data")]
                (demo_state Persisted (Some guest))))) = ∅.
Proof.
  assert (Hmem : in_memory
            (XBlockRuntime_init (fst (XBlockRuntimeSystem_init Persisted []))
               (Some guest)) = true) by reflexivity.
  assert (Hd : service_declaration demo_block "field-data" ≠ None)
    by (vm_compute; discriminate).
  split; [exact Hmem|]. split; [exact Hd|].
  exact (proj2 (in_memory_runtime_always_serves
                  (fst (XBlockRuntimeSystem_init Persisted [])) (Some guest)
                  (snd (XBlockRuntimeSystem_init Persisted []))
                  [(demo_block2, "field-data")] demo_block Hmem Hd)).
Defined.

Lemma publish_grade_registered_witness :
  user (self demo_alice) = Some alice ∧ is_anonymous alice = false ∧
  user_id (self demo_alice) ≠ None ∧
  publish demo_block "grade" {[ "max_value" := VInt 4 ]} demo_alice =
    (inl (KeyError "value"), demo_alice).
Proof.
  assert (Hid : user_id (self demo_alice) ≠ None)
    by (vm_compute; discriminate).
  split; [reflexivity|]. split; [reflexivity|]. split; [exact Hid|].
  exact (publish_grade_registered demo_alice demo_block
           {[ "max_value" := VInt 4 ]} alice eq_refl eq_refl Hid).
Defined.

Lemma publish_completion_witness :
  user_id (self (demo_state Persisted (Some guest))) ≠ None ∧
  publish demo_block "completion" {[ "completion" := VInt 1 ]}
    (demo_state Persisted (Some guest)) =
    (inr tt,
     mkState (self (demo_state Persisted (Some guest)))
       (heap (demo_state Persisted (Some guest)))
       [submit_completion (Some guest) (ScopeIds.usage_id (scope_ids demo_block))
          (VInt 1)]).
Proof.
  assert (Hid : user_id (self (demo_state Persisted (Some guest))) ≠ None)
    by (vm_compute; discriminate).
  split; [exact Hid|].
  exact (publish_completion (demo_state Persisted (Some guest)) demo_block
           {[ "completion" := VInt 1 ]} Hid).
Defined.

Lemma fix_frag_data_idempotent_witness :
  is_absolute_root get_site_root_url = true ∧
  fix_frag_data (fix_frag_data (to_dict demo_fragment)) =
    fix_frag_data (to_dict demo_fragment).
Proof.
  assert (Hroot : is_absolute_root get_site_root_url = true) by reflexivity.
  split; [exact Hroot|].
  exact (proj1 (fix_frag_data_idempotent (to_dict demo_fragment) Hroot)).
Defined.

Lemma render_registered_user_witness :
  user (self demo_alice) = Some alice ∧ is_anonymous alice = false ∧
  ∃ fragment,
    render demo_render demo_block "author_view" None demo_alice =
      (inr fragment, demo_alice).
Proof.
  split; [reflexivity|]. split; [reflexivity|].
  exact (render_registered_user demo_render demo_alice demo_block
           "author_view" None alice eq_refl eq_refl).
Defined.

Lemma render_result_witness :
  demo_render demo_block "public_view" None
    (demo_state Persisted (Some guest)) =
    (inr demo_fragment, demo_state Persisted (Some guest)) ∧
  render demo_render demo_block "public_view" None
    (demo_state Persisted (Some guest)) =
    (inr (wrap_fragment
            (mkFragment (content demo_fragment)
               (fix_resource <$> resources demo_fragment)
               (js_init_fn demo_fragment) (js_init_version demo_fragment)
               (json_init_args demo_fragment))
            (replace_urls demo_block (content demo_fragment))),
     demo_state Persisted (Some guest)).
Proof.
  assert (Hview : demo_render demo_block "public_view" None
                    (demo_state Persisted (Some guest)) =
                  (inr demo_fragment, demo_state Persisted (Some guest)))
    by reflexivity.
  split; [exact Hview|].
  exact (render_result demo_render (demo_state Persisted (Some guest))
           demo_block "public_view" None demo_fragment
           (demo_state Persisted (Some guest)) (or_intror eq_refl) Hview).
Defined.

Lemma handler_url_suffix_witness :
  "hint/3" ≠ "" ∧
  handler_url demo_handler_url (self demo_alice) demo_block "submit" "hint/3"
    "" false =
    "https://lms.example.org/xblock/intro/handler/submit/hint/3".
Proof.
  assert (Hs : "hint/3" ≠ "") by discriminate.
  split; [exact Hs|].
  destruct (handler_url_suffix demo_handler_url (self demo_alice) demo_block
              "submit" "hint/3" false Hs) as (u & Hu & _ & Hbase).
  rewrite Hu, Hbase. reflexivity.
Defined.

Lemma handler_url_query_witness :
  "n=1" ≠ "" ∧
  str_in "?"
    (handler_url demo_handler_url (self demo_alice) demo_block "submit" ""
       "n=1" false) = true.
Proof.
  assert (Hq : "n=1" ≠ "") by discriminate.
  split; [exact Hq|].
  exact (proj1 (proj2 (handler_url_query demo_handler_url (self demo_alice)
                         demo_block "submit" "" "n=1" false Hq))).
Defined.

Lemma runtime_serves_system_stores_witness :
  service demo_block "field-data" demo_alice =
    (inr (Some (FieldDataRef 5)), demo_alice_served) ∧
  ∃ scope_mappings authored children_,
    heap demo_alice_served !! 5%nat = Some (SplitFieldData scope_mappings) ∧
    _field_data scope_mappings Scope.content = Some (Some authored) ∧
    _field_data scope_mappings Scope.children = Some (Some children_) ∧
    heap demo_alice_served !! authored = Some BlockstoreFieldData ∧
    heap demo_alice_served !! children_ =
      Some (BlockstoreChildrenData authored).
Proof.
  assert (Hcall : service demo_block "field-data" demo_alice =
                    (inr (Some (FieldDataRef 5)), demo_alice_served))
    by (vm_compute; reflexivity).
  split; [exact Hcall|].
  destruct (runtime_serves_system_stores Persisted (Some alice) [] []
              demo_block 5%nat demo_alice_served Hcall)
    as (m & a & c & H1 & H2 & H3 & H4 & H5 & _).
  exists m, a, c. repeat split; assumption.
Defined.

Lemma blocks_of_a_context_share_cache_witness :
  service demo_block "field-data" demo_alice =
    (inr (Some (FieldDataRef 5)), demo_alice_served) ∧
  service demo_block2 "field-data"
    (service_calls [(demo_block, "i18n")] demo_alice_served) =
    (inr (Some (FieldDataRef 8)),
     exec (service demo_block2 "field-data")
       (service_calls [(demo_block, "i18n")] demo_alice_served)) ∧
  ∃ c,
    cache_behind
      (heap (exec (service demo_block2 "field-data")
               (service_calls [(demo_block, "i18n")] demo_alice_served)))
      5%nat = Some c ∧
    cache_behind
      (heap (exec (service demo_block2 "field-data")
               (service_calls [(demo_block, "i18n")] demo_alice_served)))
      8%nat = Some c.
Proof.
  assert (Hcall1 : service demo_block "field-data" demo_alice =
                     (inr (Some (FieldDataRef 5)), demo_alice_served))
    by (vm_compute; reflexivity).
  assert (Hcall2 :
    service demo_block2 "field-data"
      (service_calls [(demo_block, "i18n")] demo_alice_served) =
      (inr (Some (FieldDataRef 8)),
       exec (service demo_block2 "field-data")
         (service_calls [(demo_block, "i18n")] demo_alice_served)))
    by (vm_compute; reflexivity).
  assert (Hk1 : block_field_datas (self demo_alice) !! scope_ids demo_block
                = None) by reflexivity.
  assert (Hk2 : block_field_datas
                  (self (service_calls [(demo_block, "i18n")]
                           demo_alice_served)) !! scope_ids demo_block2
                = None) by (vm_compute; reflexivity).
  split; [exact Hcall1|]. split; [exact Hcall2|].
  destruct (blocks_of_a_context_share_cache demo_alice demo_block demo_block2
              alice 5%nat demo_alice_served [(demo_block, "i18n")] 8%nat _
              eq_refl eq_refl eq_refl Hk1 Hcall1 eq_refl Hk2 Hcall2)
    as (_ & c & Hc1 & Hc2 & _).
  exists c. split; [exact Hc1|exact Hc2].
Defined.

Lemma constructor_failure_is_retried_witness :
  FieldDataCache_init [demo_block_down] "lib:Org:Down" alice None false =
    inl (Raised "DatabaseError") ∧
  service demo_block_down "field-data" demo_alice =
    (inl (Raised "DatabaseError"),
     exec (service demo_block_down "field-data") demo_alice) ∧
  _init_field_data_for_block demo_block_down2
    (exec (service demo_block_down "field-data") demo_alice) =
    (inl (Raised "DatabaseError"),
     exec (service demo_block_down "field-data") demo_alice).
Proof.
  assert (Hinit :
    FieldDataCache_init [demo_block_down]
      (context_key (ScopeIds.usage_id (scope_ids demo_block_down))) alice None
      false = inl (Raised "DatabaseError")) by reflexivity.
  assert (Hd : service_declaration demo_block_down "field-data" ≠ None)
    by (vm_compute; discriminate).
  split; [exact Hinit|].
  destruct (constructor_failure_is_retried demo_alice demo_block_down
              demo_block_down2 alice (Raised "DatabaseError")
              eq_refl eq_refl eq_refl Hd eq_refl eq_refl Hinit eq_refl)
    as (Hcall & _ & _ & Hnext).
  split; [exact Hcall|exact Hnext].
Defined.

Lemma constructed_runtime_invariants_witness :
  (∀ u, is_anon_user_id (Some (get_xblock_id_for_anonymous_user u)) = true) ∧
  anonymous_user_id_ok
    (self (service_calls [(demo_block, "field-data")]
             (demo_state Persisted (Some guest)))) = true.
Proof.
  assert (Hanon : ∀ u : UserType,
            is_anon_user_id (Some (get_xblock_id_for_anonymous_user u)) = true)
    by (intros u; reflexivity).
  split; [exact Hanon|].
  exact (proj1 (constructed_runtime_invariants
                  (fst (XBlockRuntimeSystem_init Persisted [])) (Some guest)
                  (snd (XBlockRuntimeSystem_init Persisted []))
                  [(demo_block, "field-data")] Hanon)).
Defined.
